(** * mongo-mcp: the configuration snapshot, the connection manager and
      the tool gateway of the MongoDB MCP server

    The development follows the layout of the Python package:
    - [config]        src/mongo_mcp/config.py  (environment, feature flags,
                      connection options);
    - [json_encoder]  mongo_mcp.utils.json_encoder (value codec);
    - [db]            mongo_mcp.db (the shared pooled client);
    - [tools]         mongo_mcp.tools (the operations behind the wrappers);
    - [server]        src/mongo_mcp/server.py (tool wrappers, registration,
                      signal handling, start-up).
    Definitions come first, the theorems about them afterwards. *)

From Stdlib Require Import ZArith String Ascii List Lia Bool.
From stdpp Require Import base option gmap strings list.

Open Scope string_scope.
Open Scope Z_scope.

Set Warnings "-register-all".

(** ** Python strings and integers, as far as config.py needs them *)
Module py.

(** [str.lower()].  Only the ASCII letters are folded; for the comparison
    with the literal ["true"] this is exact, since no other character
    lowers to one of t, r, u, e. *)
Definition lower_ascii (c : ascii) : ascii :=
  let n := nat_of_ascii c in
  if (65 <=? n)%nat && (n <=? 90)%nat then ascii_of_nat (n + 32) else c.

Fixpoint lower (s : string) : string :=
  match s with
  | EmptyString => EmptyString
  | String c r => String (lower_ascii c) (lower r)
  end.

(** The white space [int()] skips around an ASCII text: space, tab, line
    feed, vertical tab, form feed and carriage return. *)
Definition is_space (c : ascii) : bool :=
  let n := nat_of_ascii c in
  ((9 <=? n)%nat && (n <=? 13)%nat) || (n =? 32)%nat.

Definition is_digit (c : ascii) : bool :=
  let n := nat_of_ascii c in (48 <=? n)%nat && (n <=? 57)%nat.

Definition digit_value (c : ascii) : Z := Z.of_nat (nat_of_ascii c) - 48.

Fixpoint lstrip (l : list ascii) : list ascii :=
  match l with
  | c :: r => if is_space c then lstrip r else l
  | [] => []
  end.

Definition strip (l : list ascii) : list ascii :=
  rev (lstrip (rev (lstrip l))).

(** Decimal digits with single underscores between digits, as [int()]
    accepts them. [after_digit] tells whether the previous character was a
    digit. *)
Fixpoint digits (acc : Z) (after_digit : bool) (l : list ascii) : option Z :=
  match l with
  | [] => if after_digit then Some acc else None
  | c :: r =>
      if is_digit c then digits (10 * acc + digit_value c) true r
      else if Ascii.eqb c "_" then
             if after_digit then digits acc false r else None
      else None
  end.

(** The default of [sys.get_int_max_str_digits()]: a text with more digits
    is refused. *)
Definition max_str_digits : nat := 4300.

Definition count_digits (l : list ascii) : nat :=
  length (List.filter is_digit l).

(** [int(s)] for an ASCII text [s] in base 10; [None] is [ValueError].
    Text outside ASCII (a decimal digit or a space of another script, which
    [int()] also accepts) is not modelled: here it does not convert. *)
Definition int (s : string) : option Z :=
  let l := strip (list_ascii_of_string s) in
  if (max_str_digits <? count_digits l)%nat then None
  else
    match l with
    | "+"%char :: r => digits 0 false r
    | "-"%char :: r => Z.opp <$> digits 0 false r
    | _ => digits 0 false l
    end.

(** Truth value of an [Optional[str]]: [None] and the empty string are
    false. *)
Definition truthy (o : option string) : bool :=
  match o with
  | None => false
  | Some s => negb (String.eqb s "")
  end.

End py.

(** ** mongo_mcp.config *)
Module config.

(** [os.environ]. *)
Abbreviation environ := (gmap string string).

(** [os.environ.get(name, default)]. *)
Definition environ_get (env : environ) (name default : string) : string :=
  match env !! name with
  | Some v => v
  | None => default
  end.

(** [os.environ.get(name, default).lower() == "true"]. *)
Definition flag (env : environ) (name default : string) : bool :=
  String.eqb (py.lower (environ_get env name default)) "true".

(** What a feature flag is to be: its default when the environment does
    not configure it, and otherwise whether the configured text reads
    "true" in any letter case. *)
Definition flag_value (env : environ) (name : string) (default : bool)
    : bool :=
  match env !! name with
  | Some v => String.eqb (py.lower v) "true"
  | None => default
  end.

(** The module globals of config.py, bound once when the module is
    imported (the ConfigurationSnapshot of the specification). *)
Record Config : Type := {
  MONGODB_URI : string;
  MONGODB_DEFAULT_DB : option string;
  MONGODB_MIN_POOL_SIZE : Z;
  MONGODB_MAX_POOL_SIZE : Z;
  MONGODB_MAX_IDLE_TIME_MS : Z;
  MONGODB_SERVER_SELECTION_TIMEOUT_MS : Z;
  MONGODB_SOCKET_TIMEOUT_MS : Z;
  MONGODB_CONNECT_TIMEOUT_MS : Z;
  MONGODB_MAX_DOCUMENTS_LIMIT : Z;
  MONGODB_DEFAULT_BATCH_SIZE : Z;
  MONGODB_TLS_ENABLED : bool;
  MONGODB_TLS_CA_FILE : option string;
  MONGODB_TLS_CERT_FILE : option string;
  MONGODB_TLS_KEY_FILE : option string;
  MONGODB_AUTH_SOURCE : string;
  MONGODB_AUTH_MECHANISM : option string;
  MONGODB_READ_PREFERENCE : string;
  MONGODB_WRITE_CONCERN_W : string;
  MONGODB_WRITE_CONCERN_J : bool;
  MONGODB_READ_CONCERN_LEVEL : string;
  ENABLE_DANGEROUS_OPERATIONS : bool;
  ENABLE_ADMIN_OPERATIONS : bool;
  ENABLE_INDEX_OPERATIONS : bool;
  MCP_TRANSPORT : string;
  MCP_HOST : string;
  MCP_PORT : Z
}.

(** Executing the module body against an environment.  [None] stands for
    the [ValueError] of an [int()] that cannot parse its setting.  The
    logging set-up of the module (log directory, level, handlers) is left
    out. *)
Definition load (env : environ) : option Config :=
  min_pool ← py.int (environ_get env "MONGODB_MIN_POOL_SIZE" "0");
  max_pool ← py.int (environ_get env "MONGODB_MAX_POOL_SIZE" "100");
  max_idle ← py.int (environ_get env "MONGODB_MAX_IDLE_TIME_MS" "30000");
  sel_timeout ←
    py.int (environ_get env "MONGODB_SERVER_SELECTION_TIMEOUT_MS" "30000");
  sock_timeout ← py.int (environ_get env "MONGODB_SOCKET_TIMEOUT_MS" "0");
  conn_timeout ← py.int (environ_get env "MONGODB_CONNECT_TIMEOUT_MS" "20000");
  max_docs ← py.int (environ_get env "MONGODB_MAX_DOCUMENTS_LIMIT" "1000");
  batch ← py.int (environ_get env "MONGODB_DEFAULT_BATCH_SIZE" "100");
  port ← py.int (environ_get env "MCP_PORT" "8000");
  Some {|
    MONGODB_URI := environ_get env "MONGODB_URI" "mongodb://localhost:27017";
    MONGODB_DEFAULT_DB := env !! "MONGODB_DEFAULT_DB";
    MONGODB_MIN_POOL_SIZE := min_pool;
    MONGODB_MAX_POOL_SIZE := max_pool;
    MONGODB_MAX_IDLE_TIME_MS := max_idle;
    MONGODB_SERVER_SELECTION_TIMEOUT_MS := sel_timeout;
    MONGODB_SOCKET_TIMEOUT_MS := sock_timeout;
    MONGODB_CONNECT_TIMEOUT_MS := conn_timeout;
    MONGODB_MAX_DOCUMENTS_LIMIT := max_docs;
    MONGODB_DEFAULT_BATCH_SIZE := batch;
    MONGODB_TLS_ENABLED := flag env "MONGODB_TLS_ENABLED" "false";
    MONGODB_TLS_CA_FILE := env !! "MONGODB_TLS_CA_FILE";
    MONGODB_TLS_CERT_FILE := env !! "MONGODB_TLS_CERT_FILE";
    MONGODB_TLS_KEY_FILE := env !! "MONGODB_TLS_KEY_FILE";
    MONGODB_AUTH_SOURCE := environ_get env "MONGODB_AUTH_SOURCE" "admin";
    MONGODB_AUTH_MECHANISM := env !! "MONGODB_AUTH_MECHANISM";
    MONGODB_READ_PREFERENCE :=
      environ_get env "MONGODB_READ_PREFERENCE" "primary";
    MONGODB_WRITE_CONCERN_W := environ_get env "MONGODB_WRITE_CONCERN_W" "1";
    MONGODB_WRITE_CONCERN_J := flag env "MONGODB_WRITE_CONCERN_J" "false";
    MONGODB_READ_CONCERN_LEVEL :=
      environ_get env "MONGODB_READ_CONCERN_LEVEL" "local";
    ENABLE_DANGEROUS_OPERATIONS := flag env "ENABLE_DANGEROUS_OPERATIONS" "false";
    ENABLE_ADMIN_OPERATIONS := flag env "ENABLE_ADMIN_OPERATIONS" "true";
    ENABLE_INDEX_OPERATIONS := flag env "ENABLE_INDEX_OPERATIONS" "true";
    MCP_TRANSPORT := environ_get env "MCP_TRANSPORT" "sse";
    MCP_HOST := environ_get env "MCP_HOST" "0.0.0.0";
    MCP_PORT := port
  |}.

(** The configuration of a process started with nothing configured. *)
Definition defaults : Config := {|
  MONGODB_URI := "mongodb://localhost:27017";
  MONGODB_DEFAULT_DB := None;
  MONGODB_MIN_POOL_SIZE := 0;
  MONGODB_MAX_POOL_SIZE := 100;
  MONGODB_MAX_IDLE_TIME_MS := 30000;
  MONGODB_SERVER_SELECTION_TIMEOUT_MS := 30000;
  MONGODB_SOCKET_TIMEOUT_MS := 0;
  MONGODB_CONNECT_TIMEOUT_MS := 20000;
  MONGODB_MAX_DOCUMENTS_LIMIT := 1000;
  MONGODB_DEFAULT_BATCH_SIZE := 100;
  MONGODB_TLS_ENABLED := false;
  MONGODB_TLS_CA_FILE := None;
  MONGODB_TLS_CERT_FILE := None;
  MONGODB_TLS_KEY_FILE := None;
  MONGODB_AUTH_SOURCE := "admin";
  MONGODB_AUTH_MECHANISM := None;
  MONGODB_READ_PREFERENCE := "primary";
  MONGODB_WRITE_CONCERN_W := "1";
  MONGODB_WRITE_CONCERN_J := false;
  MONGODB_READ_CONCERN_LEVEL := "local";
  ENABLE_DANGEROUS_OPERATIONS := false;
  ENABLE_ADMIN_OPERATIONS := true;
  ENABLE_INDEX_OPERATIONS := true;
  MCP_TRANSPORT := "sse";
  MCP_HOST := "0.0.0.0";
  MCP_PORT := 8000
|}.

(** A value stored in the options dictionary. *)
Inductive optval : Type :=
  | OInt (n : Z)
  | OStr (s : string)
  | OBool (b : bool).

#[global] Instance optval_eq_dec : EqDecision optval.
Proof. solve_decision. Defined.

(** [if setting: options[key] = setting]. *)
Definition set_if_truthy (key : string) (o : option string)
    (options : gmap string optval) : gmap string optval :=
  match o with
  | Some s => if py.truthy o then <[key := OStr s]> options else options
  | None => options
  end.

(** [get_connection_options()]. *)
Definition get_connection_options (c : Config) : gmap string optval :=
  let options : gmap string optval :=
    <["authSource" := OStr (MONGODB_AUTH_SOURCE c)]>
    (<["connectTimeoutMS" := OInt (MONGODB_CONNECT_TIMEOUT_MS c)]>
    (<["serverSelectionTimeoutMS" :=
         OInt (MONGODB_SERVER_SELECTION_TIMEOUT_MS c)]>
    (<["maxIdleTimeMS" := OInt (MONGODB_MAX_IDLE_TIME_MS c)]>
    (<["maxPoolSize" := OInt (MONGODB_MAX_POOL_SIZE c)]>
    (<["minPoolSize" := OInt (MONGODB_MIN_POOL_SIZE c)]> ∅))))) in
  let options :=
    if 0 <? MONGODB_SOCKET_TIMEOUT_MS c
    then <["socketTimeoutMS" := OInt (MONGODB_SOCKET_TIMEOUT_MS c)]> options
    else options in
  let options :=
    if MONGODB_TLS_ENABLED c then
      let options := <["tls" := OBool true]> options in
      let options :=
        set_if_truthy "tlsCAFile" (MONGODB_TLS_CA_FILE c) options in
      set_if_truthy "tlsCertificateKeyFile" (MONGODB_TLS_CERT_FILE c) options
    else options in
  set_if_truthy "authMechanism" (MONGODB_AUTH_MECHANISM c) options.

(** The values held by an options dictionary, and whether a value is
    among them. *)
Definition option_values (options : gmap string optval) : list optval :=
  (map_to_list options).*2.

Definition appears (v : optval) (options : gmap string optval) : bool :=
  bool_decide (v ∈ option_values options).

Definition appears_if_set (o : option string)
    (options : gmap string optval) : bool :=
  match o with
  | Some s => appears (OStr s) options
  | None => true
  end.

(** Every parameter of the snapshot that concerns the connection is among
    the values of the options: pool bounds, idle time, the three timeouts,
    the TLS files, auth source and mechanism, read preference, write
    concern and read concern. *)
Definition whole_snapshot_in_options (c : Config) : bool :=
  let options := get_connection_options c in
  appears (OInt (MONGODB_MIN_POOL_SIZE c)) options &&
  appears (OInt (MONGODB_MAX_POOL_SIZE c)) options &&
  appears (OInt (MONGODB_MAX_IDLE_TIME_MS c)) options &&
  appears (OInt (MONGODB_SERVER_SELECTION_TIMEOUT_MS c)) options &&
  appears (OInt (MONGODB_CONNECT_TIMEOUT_MS c)) options &&
  appears (OInt (MONGODB_SOCKET_TIMEOUT_MS c)) options &&
  appears_if_set (MONGODB_TLS_CA_FILE c) options &&
  appears_if_set (MONGODB_TLS_CERT_FILE c) options &&
  appears_if_set (MONGODB_TLS_KEY_FILE c) options &&
  appears (OStr (MONGODB_AUTH_SOURCE c)) options &&
  appears_if_set (MONGODB_AUTH_MECHANISM c) options &&
  appears (OStr (MONGODB_READ_PREFERENCE c)) options &&
  appears (OStr (MONGODB_WRITE_CONCERN_W c)) options &&
  appears (OBool (MONGODB_WRITE_CONCERN_J c)) options &&
  appears (OStr (MONGODB_READ_CONCERN_LEVEL c)) options.

(** An environment that sets everything the options can take: TLS with its
    three files, a socket timeout, an auth mechanism, and the read and write
    concerns. *)
Definition tls_environ : environ :=
  <["MONGODB_TLS_ENABLED" := "true"]>
  (<["MONGODB_TLS_CA_FILE" := "/etc/ssl/ca.pem"]>
  (<["MONGODB_TLS_CERT_FILE" := "/etc/ssl/client.pem"]>
  (<["MONGODB_TLS_KEY_FILE" := "/etc/ssl/client.key"]>
  (<["MONGODB_SOCKET_TIMEOUT_MS" := "5000"]>
  (<["MONGODB_AUTH_MECHANISM" := "SCRAM-SHA-256"]>
  (<["MONGODB_READ_PREFERENCE" := "secondary"]>
  (<["MONGODB_WRITE_CONCERN_W" := "majority"]>
  (<["MONGODB_READ_CONCERN_LEVEL" := "snapshot"]> ∅)))))))).

(** The configuration loaded from it. *)
Definition tls_config : Config :=
  match load tls_environ with
  | Some c => c
  | None => defaults
  end.

End config.

(** ** mongo_mcp.utils.json_encoder: the value codec

    The module is not among the sources; its types and functions follow
    the Value Codec of the specification. *)
Module json_encoder.

(** A [datetime.datetime] (naive, as the driver returns it). *)
Record datetime : Type := {
  year : Z; month : Z; day : Z;
  hour : Z; minute : Z; second : Z; microsecond : Z
}.

Definition is_leap (y : Z) : bool :=
  ((y mod 4 =? 0) && negb (y mod 100 =? 0)) || (y mod 400 =? 0).

Definition days_in_month (y m : Z) : Z :=
  if m =? 2 then (if is_leap y then 29 else 28)
  else if (m =? 4) || (m =? 6) || (m =? 9) || (m =? 11) then 30
  else 31.

(** The invariant of a [datetime] object. *)
Definition datetime_ok (d : datetime) : bool :=
  (1 <=? year d) && (year d <=? 9999) &&
  (1 <=? month d) && (month d <=? 12) &&
  (1 <=? day d) && (day d <=? days_in_month (year d) (month d)) &&
  (0 <=? hour d) && (hour d <? 24) &&
  (0 <=? minute d) && (minute d <? 60) &&
  (0 <=? second d) && (second d <? 60) &&
  (0 <=? microsecond d) && (microsecond d <? 1000000).

(** The extended types that have a tagged transport form. *)
Inductive ext_tag : Type := TagObjectId | TagDatetime | TagBinary.

(** Values on the database side. [NOther] is a driver type the codec does
    not know, carried with its [str()]. *)
Inductive native : Type :=
  | NNone
  | NBool (b : bool)
  | NInt (n : Z)
  | NStr (s : string)
  | NList (l : list native)
  | NDict (kvs : list (string * native))
  | NObjectId (oid : list Byte.byte)
  | NDatetime (d : datetime)
  | NBinary (data : list Byte.byte)
  | NOther (repr : string).

(** Values on the transport side: JSON, with strings that may carry the
    tag of the extended type they stand for. *)
Inductive transport : Type :=
  | TNull
  | TBool (b : bool)
  | TInt (n : Z)
  | TStr (s : string)
  | TList (l : list transport)
  | TDict (kvs : list (string * transport))
  | TTagged (tag : ext_tag) (s : string).

(** *** Hexadecimal: the canonical form of an object identifier *)
Definition hex_char (n : N) : ascii :=
  ascii_of_N (if (n <? 10)%N then 48 + n else 87 + n)%N.

Definition hex_value (c : ascii) : option N :=
  let n := N_of_ascii c in
  if ((48 <=? n) && (n <=? 57))%N then Some (n - 48)%N
  else if ((97 <=? n) && (n <=? 102))%N then Some (n - 87)%N
  else if ((65 <=? n) && (n <=? 70))%N then Some (n - 55)%N
  else None.

Fixpoint hexlify (bs : list Byte.byte) : list ascii :=
  match bs with
  | [] => []
  | b :: r =>
      let n := Byte.to_N b in
      hex_char (n / 16)%N :: hex_char (n mod 16)%N :: hexlify r
  end.

Fixpoint unhexlify (l : list ascii) : option (list Byte.byte) :=
  match l with
  | [] => Some []
  | h :: l0 :: r =>
      hi ← hex_value h;
      lo ← hex_value l0;
      b ← Byte.of_N (16 * hi + lo)%N;
      bs ← unhexlify r;
      Some (b :: bs)
  | _ => None
  end.

(** *** Base64 with the standard alphabet and [=] padding *)
Definition b64_char (n : N) : ascii :=
  ascii_of_N (if (n <? 26)%N then 65 + n
              else if (n <? 52)%N then 71 + n
              else if (n <? 62)%N then n - 4
              else if (n =? 62)%N then 43 else 47)%N.

Definition b64_value (c : ascii) : option N :=
  let n := N_of_ascii c in
  if ((65 <=? n) && (n <=? 90))%N then Some (n - 65)%N
  else if ((97 <=? n) && (n <=? 122))%N then Some (n - 71)%N
  else if ((48 <=? n) && (n <=? 57))%N then Some (n + 4)%N
  else if (n =? 43)%N then Some 62%N
  else if (n =? 47)%N then Some 63%N
  else None.

Definition pad : ascii := "="%char.

Fixpoint b64encode (bs : list Byte.byte) : list ascii :=
  match bs with
  | [] => []
  | [x] =>
      let a := Byte.to_N x in
      [b64_char (a / 4); b64_char ((a mod 4) * 16); pad; pad]%N
  | [x; y] =>
      let a := Byte.to_N x in
      let b := Byte.to_N y in
      [b64_char (a / 4); b64_char ((a mod 4) * 16 + b / 16);
       b64_char ((b mod 16) * 4); pad]%N
  | x :: y :: z :: r =>
      let a := Byte.to_N x in
      let b := Byte.to_N y in
      let c := Byte.to_N z in
      (b64_char (a / 4) :: b64_char ((a mod 4) * 16 + b / 16) ::
       b64_char ((b mod 16) * 4 + c / 64) :: b64_char (c mod 64) ::
       b64encode r)%N
  end.

Fixpoint b64decode (l : list ascii) : option (list Byte.byte) :=
  match l with
  | [] => Some []
  | c1 :: c2 :: c3 :: c4 :: r =>
      s1 ← b64_value c1;
      s2 ← b64_value c2;
      x ← Byte.of_N (s1 * 4 + s2 / 16)%N;
      if Ascii.eqb c4 pad then
        match r with
        | [] =>
            if Ascii.eqb c3 pad then Some [x]
            else
              s3 ← b64_value c3;
              y ← Byte.of_N ((s2 mod 16) * 16 + s3 / 4)%N;
              Some [x; y]
        | _ => None
        end
      else
        s3 ← b64_value c3;
        s4 ← b64_value c4;
        y ← Byte.of_N ((s2 mod 16) * 16 + s3 / 4)%N;
        z ← Byte.of_N ((s3 mod 4) * 64 + s4)%N;
        bs ← b64decode r;
        Some (x :: y :: z :: bs)
  | _ => None
  end.

(** *** ISO-8601: [YYYY-MM-DDTHH:MM:SS.ffffff] *)
Definition digit_char (n : Z) : ascii := ascii_of_N (48 + Z.to_N n).

(** [n] in [w] decimal digits, zero padded. *)
Fixpoint zpad (w : nat) (n : Z) : list ascii :=
  match w with
  | O => []
  | S w' => digit_char ((n / 10 ^ Z.of_nat w') mod 10) :: zpad w' n
  end.

(** Read exactly [w] decimal digits. *)
Fixpoint take_digits (w : nat) (acc : Z) (l : list ascii)
    : option (Z * list ascii) :=
  match w with
  | O => Some (acc, l)
  | S w' =>
      match l with
      | c :: r =>
          if py.is_digit c
          then take_digits w' (10 * acc + py.digit_value c) r
          else None
      | [] => None
      end
  end.

Definition expect (c : ascii) (l : list ascii) : option (list ascii) :=
  match l with
  | c' :: r => if Ascii.eqb c c' then Some r else None
  | [] => None
  end.

Definition isoformat (d : datetime) : list ascii :=
  zpad 4 (year d) ++ "-"%char :: zpad 2 (month d) ++ "-"%char ::
  zpad 2 (day d) ++ "T"%char :: zpad 2 (hour d) ++ ":"%char ::
  zpad 2 (minute d) ++ ":"%char :: zpad 2 (second d) ++ "."%char ::
  zpad 6 (microsecond d).

Definition fromisoformat (l : list ascii) : option datetime :=
  '(y, l) ← take_digits 4 0 l; l ← expect "-" l;
  '(m, l) ← take_digits 2 0 l; l ← expect "-" l;
  '(dd, l) ← take_digits 2 0 l; l ← expect "T" l;
  '(h, l) ← take_digits 2 0 l; l ← expect ":" l;
  '(mi, l) ← take_digits 2 0 l; l ← expect ":" l;
  '(s, l) ← take_digits 2 0 l; l ← expect "." l;
  '(us, l) ← take_digits 6 0 l;
  let d := {| year := y; month := m; day := dd; hour := h; minute := mi;
              second := s; microsecond := us |} in
  match l with
  | [] => if datetime_ok d then Some d else None
  | _ => None
  end.

(** *** encode and decode *)

(** Modelled from the spec: [mongodb_json_serializer] (server.py imports it
    from mongo_mcp.utils.json_encoder, which is not among the sources).
    An object identifier becomes its canonical string form, a timestamp an
    ISO-8601 string, binary data a base64 string, each under the tag of its
    type; scalars, sequences and string-keyed mappings pass through
    recursively, keys in order; a type the codec does not know becomes its
    string representation. *)
Fixpoint encode (v : native) : transport :=
  match v with
  | NNone => TNull
  | NBool b => TBool b
  | NInt n => TInt n
  | NStr s => TStr s
  | NList l => TList (map encode l)
  | NDict kvs => TDict (map (fun kv => (fst kv, encode (snd kv))) kvs)
  | NObjectId oid => TTagged TagObjectId (string_of_list_ascii (hexlify oid))
  | NDatetime d => TTagged TagDatetime (string_of_list_ascii (isoformat d))
  | NBinary data => TTagged TagBinary (string_of_list_ascii (b64encode data))
  | NOther repr => TStr repr
  end.

(** The payload of a tagged string, read back as the native value of its
    type; [None] when the payload is not of that form. *)
Definition decode_tagged (tag : ext_tag) (s : string) : option native :=
  let l := list_ascii_of_string s in
  match tag with
  | TagObjectId =>
      oid ← unhexlify l;
      if (length oid =? 12)%nat then Some (NObjectId oid) else None
  | TagDatetime => NDatetime <$> fromisoformat l
  | TagBinary => NBinary <$> b64decode l
  end.

(** Modelled from the spec: the inverse mapping for the tagged forms (no
    decoder is among the sources).  It never fails: a tagged string whose
    payload is malformed stays a plain string. *)
Fixpoint decode (t : transport) : native :=
  match t with
  | TNull => NNone
  | TBool b => NBool b
  | TInt n => NInt n
  | TStr s => NStr s
  | TList l => NList (map decode l)
  | TDict kvs => NDict (map (fun kv => (fst kv, decode (snd kv))) kvs)
  | TTagged tag s =>
      match decode_tagged tag s with
      | Some v => v
      | None => NStr s
      end
  end.

(** The values of a supported extended type: a 12-byte object identifier,
    a timestamp, a binary payload. *)
Definition is_extended (v : native) : bool :=
  match v with
  | NObjectId oid => (length oid =? 12)%nat
  | NDatetime d => datetime_ok d
  | NBinary _ => true
  | _ => false
  end.

(** The native values the codec maps one-to-one: identifiers of 12 bytes,
    well-formed timestamps, and no value of a type it does not know, at any
    depth. *)
Fixpoint codec_exact (v : native) : bool :=
  match v with
  | NList l => forallb codec_exact l
  | NDict kvs => forallb (fun kv => codec_exact (snd kv)) kvs
  | NObjectId oid => (length oid =? 12)%nat
  | NDatetime d => datetime_ok d
  | NOther _ => false
  | _ => true
  end.

End json_encoder.

(** ** Exceptions, the driver behind the client, and the state the
       package's functions run in *)
Module runtime.

Import json_encoder.

(** The capability classes of the specification. *)
Inductive op_class : Type :=
  | ClsRead | ClsWrite | ClsDangerous | ClsAdmin | ClsIndex.

#[global] Instance op_class_eq_dec : EqDecision op_class.
Proof. solve_decision. Defined.

(** What a call can raise.  [SystemExit], [KeyboardInterrupt],
    [GeneratorExit] and [CancelledError] derive from [BaseException] only;
    every other one is an [Exception]. *)
Inductive exn : Type :=
  | ValidationError (msg : string)
  | CapabilityDeniedError (cls : op_class)
  | ConnectionError (msg : string)
  | DatabaseOperationError (msg : string)
  | Exception (msg : string)
  | SystemExit (code : Z)
  | KeyboardInterrupt
  | GeneratorExit
  | CancelledError.

Definition is_Exception (e : exn) : bool :=
  match e with
  | SystemExit _ | KeyboardInterrupt | GeneratorExit | CancelledError => false
  | _ => true
  end.

Inductive result (A : Type) : Type :=
  | Ok (a : A)
  | Raise (e : exn).
Arguments Ok {A} a.
Arguments Raise {A} e.

(** The functions of mongo_mcp.tools that server.py imports. *)
Inductive tools_fn : Type :=
  | list_databases | list_collections | create_database | drop_database
  | get_database_stats | create_collection | drop_collection
  | rename_collection | get_collection_stats
  | insert_document | insert_many_documents | find_documents
  | find_one_document | count_documents | update_document
  | replace_document | delete_document
  | list_indexes | create_index | create_text_index | create_compound_index
  | drop_index | reindex_collection
  | aggregate_documents | distinct_values
  | get_server_status | get_replica_set_status | ping_database
  | test_mongodb_connection | get_connection_details.

#[global] Instance tools_fn_eq_dec : EqDecision tools_fn.
Proof. solve_decision. Defined.

(** The connection handle: the client object with what it was built
    from. *)
Record handle : Type := {
  handle_uri : string;
  handle_options : gmap string config.optval
}.

(** The database driver and the server behind it, an external
    collaborator: whether a connection can be established, and how a
    command is answered ([inr] is the driver's error message).  For a
    query the answer is the whole cursor, in order. *)
Class Driver : Type := {
  store : Type;
  connect : handle -> store -> bool;
  command : tools_fn -> list native -> store -> (native + string) * store
}.

(** What reached the driver, in order. *)
Inductive driver_call : Type :=
  | DrvConnect (h : handle)
  | DrvCommand (f : tools_fn) (args : list native)
  | DrvClose (h : handle).

(** The life cycle of the shared connection. *)
Inductive conn_state : Type :=
  | Uninitialized
  | ConnectionReady (h : handle)
  | Closed.

(** A log message: the fragments of the f-string. *)
Inductive fragment : Type :=
  | Lit (s : string)
  | Num (n : Z)
  | Exn (e : exn).

Inductive level : Type := INFO | WARNING | ERROR.

Record state `{Driver} : Type := {
  client : conn_state;          (* mongo_mcp.db: the module-global client *)
  calls : list driver_call;     (* the calls the driver received *)
  data : store;                 (* the database *)
  records : list (level * list fragment)   (* what the logger was given *)
}.

(** A computation: it returns or raises, and leaves a state. *)
Definition M `{Driver} (A : Type) : Type := state -> result A * state.

Section monad.
Context `{Driver}.

#[export] Instance M_ret : MRet M := fun A a st => (Ok a, st).

#[export] Instance M_bind : MBind M := fun A B f m st =>
  match m st with
  | (Ok a, st') => f a st'
  | (Raise e, st') => (Raise e, st')
  end.

Definition raise {A : Type} (e : exn) : M A := fun st => (Raise e, st).

Definition get : M state := fun st => (Ok st, st).

Definition modify (f : state -> state) : M unit := fun st => (Ok tt, f st).

(** [try: body except Exception as e: handler(e)]. *)
Definition try_except {A : Type} (body : M A) (handler : exn -> M A) : M A :=
  fun st =>
    match body st with
    | (Raise e, st') =>
        if is_Exception e then handler e st' else (Raise e, st')
    | r => r
    end.

Definition set_client (c : conn_state) (st : state) : state :=
  {| client := c; calls := calls st; data := data st;
     records := records st |}.

Definition set_data (d : store) (st : state) : state :=
  {| client := client st; calls := calls st; data := d;
     records := records st |}.

Definition add_call (c : driver_call) (st : state) : state :=
  {| client := client st; calls := calls st ++ [c]; data := data st;
     records := records st |}.

Definition add_record (l : level) (msg : list fragment) (st : state) : state :=
  {| client := client st; calls := calls st; data := data st;
     records := records st ++ [(l, msg)] |}.

(** [logger.info], [logger.warning], [logger.error]. *)
Definition logger_info (msg : list fragment) : M unit :=
  modify (add_record INFO msg).
Definition logger_warning (msg : list fragment) : M unit :=
  modify (add_record WARNING msg).
Definition logger_error (msg : list fragment) : M unit :=
  modify (add_record ERROR msg).

(** [sys.exit(code)]. *)
Definition sys_exit {A : Type} (code : Z) : M A := raise (SystemExit code).

(** A fresh process: nothing connected, nothing logged. *)
Definition initial_state (d : store) : state :=
  {| client := Uninitialized; calls := []; data := d; records := [] |}.

End monad.

End runtime.

(** ** mongo_mcp.db: the connection manager *)
Module db.

Import config json_encoder runtime.

Section db.
Context `{Driver}.

(** Modelled from the spec: [get_client] of mongo_mcp.db (server.py imports
    it; the module is not among the sources).  The shared handle is created
    on the first call from the configuration snapshot and returned by every
    later call; [ConnectionError] when the transport cannot be established,
    and once the manager is closed. *)
Definition get_client (cfg : Config) : M handle :=
  st ← get;
  match client st with
  | ConnectionReady h => mret h
  | Uninitialized =>
      let h := {| handle_uri := MONGODB_URI cfg;
                  handle_options := get_connection_options cfg |} in
      modify (add_call (DrvConnect h));;
      if connect h (data st)
      then modify (set_client (ConnectionReady h));; mret h
      else raise (ConnectionError "connection could not be established")
  | Closed => raise (ConnectionError "connection manager is closed")
  end.

(** Modelled from the spec: [close_connection] of mongo_mcp.db.  It releases
    the handle if there is one and leaves the manager closed; it never
    raises. *)
Definition close_connection : M unit :=
  st ← get;
  match client st with
  | ConnectionReady h =>
      modify (add_call (DrvClose h));; modify (set_client Closed)
  | Uninitialized => modify (set_client Closed)
  | Closed => mret tt
  end.

(** What a shutdown leaves of a state: the manager closed, the handle
    released if there was one, one more log record, the database
    untouched. *)
Definition shut_down (l : level) (msg : list fragment) (st st' : state)
    : Prop :=
  client st' = Closed /\
  calls st' = match client st with
              | ConnectionReady h => (calls st ++ [DrvClose h])%list
              | _ => calls st
              end /\
  records st' = (records st ++ [(l, msg)])%list /\
  data st' = data st.

(** [close()] called [k] times in a row. *)
Fixpoint close_times (k : nat) : M unit :=
  match k with
  | O => mret tt
  | S k' => close_connection;; close_times k'
  end.

End db.

End db.

(** ** mongo_mcp.tools: the operations behind the wrappers *)
Module tools.

Import config json_encoder runtime db.

(** Modelled from the spec: the required-argument schema of an operation
    (mongo_mcp.tools is not among the sources).  The positions of the
    arguments that must be non-empty strings: the database name, and the
    collection name(s) where the operation has them. *)
Definition required_names (f : tools_fn) : list nat :=
  match f with
  | list_databases | get_server_status | get_replica_set_status
  | ping_database | test_mongodb_connection | get_connection_details => []
  | list_collections | create_database | drop_database
  | get_database_stats => [0%nat]
  | rename_collection => [0%nat; 1%nat; 2%nat]
  | _ => [0%nat; 1%nat]
  end.

Definition nonempty_string (o : option transport) : bool :=
  match o with
  | Some (TStr s) => negb (String.eqb s "")
  | _ => false
  end.

(** Modelled from the spec: step 1 of an invocation in mongo_mcp.tools,
    the required arguments are present and non-empty strings. *)
Definition validate (f : tools_fn) (args : list transport) : bool :=
  forallb (fun i => nonempty_string (args !! i)) (required_names f).

(** Modelled from the spec: the capability class of an invocation (the
    sources have no classes).  Dropping a database or a collection is
    dangerous, and so is [delete_document] when its [delete_many] argument
    is true; server and replica-set status are administrative; the six
    index operations are of the index class. *)
Definition op_class_of (f : tools_fn) (args : list transport) : op_class :=
  match f with
  | drop_database | drop_collection => ClsDangerous
  | delete_document =>
      match args !! 3%nat with
      | Some (TBool true) => ClsDangerous
      | _ => ClsWrite
      end
  | get_server_status | get_replica_set_status => ClsAdmin
  | list_indexes | create_index | create_text_index | create_compound_index
  | drop_index | reindex_collection => ClsIndex
  | create_database | create_collection | rename_collection
  | insert_document | insert_many_documents | update_document
  | replace_document => ClsWrite
  | _ => ClsRead
  end.

(** Modelled from the spec: the Capability Gate (no gate is among the
    sources; config.py only defines the three flags).  Reads and writes are
    always allowed, each other class only under its flag. *)
Definition authorize (cfg : Config) (cls : op_class) : bool :=
  match cls with
  | ClsRead | ClsWrite => true
  | ClsDangerous => ENABLE_DANGEROUS_OPERATIONS cfg
  | ClsAdmin => ENABLE_ADMIN_OPERATIONS cfg
  | ClsIndex => ENABLE_INDEX_OPERATIONS cfg
  end.

(** The [limit] argument of [find_documents]; 0 when it is not given as an
    integer. *)
Definition limit_of (args : list transport) : Z :=
  match args !! 4%nat with
  | Some (TInt n) => n
  | _ => 0
  end.

(** Modelled from the spec: how many documents of the cursor a
    [find_documents] call of mongo_mcp.tools returns.  With [limit = 0], up
    to the configured maximum; otherwise the caller's limit. *)
Definition cursor_limit (cfg : Config) (args : list transport) : nat :=
  if limit_of args =? 0
  then Z.to_nat (MONGODB_MAX_DOCUMENTS_LIMIT cfg)
  else Z.to_nat (Z.abs (limit_of args)).

Section tools.
Context `{Driver}.

(** Modelled from the spec: the database primitive under an operation of
    mongo_mcp.tools.  The command reaches the driver, and a driver failure
    is wrapped with its message. *)
Definition execute (f : tools_fn) (args : list native) : M native :=
  st ← get;
  modify (add_call (DrvCommand f args));;
  match command f args (data st) with
  | (inl v, d) => modify (set_data d);; mret v
  | (inr msg, d) => modify (set_data d);; raise (DatabaseOperationError msg)
  end.

(** Modelled from the spec: what an operation of mongo_mcp.tools returns
    of the driver's answer; of a query's cursor, the documents up to the
    limit. *)
Definition returned (cfg : Config) (f : tools_fn) (args : list transport)
    (answer : native) : native :=
  match f, answer with
  | find_documents, NList docs => NList (take (cursor_limit cfg args) docs)
  | _, _ => answer
  end.

(** Modelled from the spec: the functions of mongo_mcp.tools (server.py
    imports and calls them; the package is not among the sources), as one
    function of the operation's name.  An invocation validates the required
    arguments, passes the Capability Gate, acquires the handle, executes
    the database primitive on the decoded arguments, and encodes the
    result. *)
Definition call (cfg : Config) (f : tools_fn) (args : list transport)
    : M transport :=
  if negb (validate f args)
  then raise (ValidationError "a required name is missing or empty")
  else
    let cls := op_class_of f args in
    if negb (authorize cfg cls)
    then raise (CapabilityDeniedError cls)
    else
      get_client cfg;;
      answer ← execute f (map decode args);
      mret (encode (returned cfg f args answer)).

End tools.

End tools.

(** ** mongo_mcp.server *)
Module server.

Import config json_encoder runtime db.

(** The name a function of mongo_mcp.tools is imported under. *)
Definition fn_name (f : tools_fn) : string :=
  match f with
  | list_databases => "list_databases"
  | list_collections => "list_collections"
  | create_database => "create_database"
  | drop_database => "drop_database"
  | get_database_stats => "get_database_stats"
  | create_collection => "create_collection"
  | drop_collection => "drop_collection"
  | rename_collection => "rename_collection"
  | get_collection_stats => "get_collection_stats"
  | insert_document => "insert_document"
  | insert_many_documents => "insert_many_documents"
  | find_documents => "find_documents"
  | find_one_document => "find_one_document"
  | count_documents => "count_documents"
  | update_document => "update_document"
  | replace_document => "replace_document"
  | delete_document => "delete_document"
  | list_indexes => "list_indexes"
  | create_index => "create_index"
  | create_text_index => "create_text_index"
  | create_compound_index => "create_compound_index"
  | drop_index => "drop_index"
  | reindex_collection => "reindex_collection"
  | aggregate_documents => "aggregate_documents"
  | distinct_values => "distinct_values"
  | get_server_status => "get_server_status"
  | get_replica_set_status => "get_replica_set_status"
  | ping_database => "ping_database"
  | test_mongodb_connection => "test_mongodb_connection"
  | get_connection_details => "get_connection_details"
  end.

(** One [def mcp_...] of the module: whether [@app.tool()] is applied to it
    (for half of them the decorator line is commented out), its parameters
    in order with their default values, and its body, which returns the
    call of [callee] on the parameters named in [passed]. *)
Record tooldef : Type := {
  name : string;
  decorated : bool;
  params : list (string * option transport);
  callee : tools_fn;
  passed : list string
}.

Definition required (p : string) : string * option transport := (p, None).
Definition optional (p : string) (v : transport) : string * option transport :=
  (p, Some v).

Definition mcp_list_databases : tooldef :=
  {| name := "mcp_list_databases"; decorated := true;
     params := [];
     callee := list_databases;
     passed := [] |}.

Definition mcp_list_collections : tooldef :=
  {| name := "mcp_list_collections"; decorated := true;
     params := [required "database_name"];
     callee := list_collections;
     passed := ["database_name"] |}.

Definition mcp_create_database : tooldef :=
  {| name := "mcp_create_database"; decorated := false;
     params := [required "database_name";
       optional "initial_collection" (TStr "init");
       optional "initial_document" TNull];
     callee := create_database;
     passed := ["database_name"; "initial_collection"; "initial_document"] |}.

Definition mcp_drop_database : tooldef :=
  {| name := "mcp_drop_database"; decorated := false;
     params := [required "database_name"];
     callee := drop_database;
     passed := ["database_name"] |}.

Definition mcp_get_database_stats : tooldef :=
  {| name := "mcp_get_database_stats"; decorated := true;
     params := [required "database_name"];
     callee := get_database_stats;
     passed := ["database_name"] |}.

Definition mcp_create_collection : tooldef :=
  {| name := "mcp_create_collection"; decorated := false;
     params := [required "database_name"; required "collection_name";
       optional "options" TNull];
     callee := create_collection;
     passed := ["database_name"; "collection_name"; "options"] |}.

Definition mcp_drop_collection : tooldef :=
  {| name := "mcp_drop_collection"; decorated := false;
     params := [required "database_name"; required "collection_name"];
     callee := drop_collection;
     passed := ["database_name"; "collection_name"] |}.

Definition mcp_rename_collection : tooldef :=
  {| name := "mcp_rename_collection"; decorated := false;
     params := [required "database_name"; required "old_name";
       required "new_name"];
     callee := rename_collection;
     passed := ["database_name"; "old_name"; "new_name"] |}.

Definition mcp_get_collection_stats : tooldef :=
  {| name := "mcp_get_collection_stats"; decorated := true;
     params := [required "database_name"; required "collection_name"];
     callee := get_collection_stats;
     passed := ["database_name"; "collection_name"] |}.

Definition mcp_insert_document : tooldef :=
  {| name := "mcp_insert_document"; decorated := false;
     params := [required "database_name"; required "collection_name";
       required "document"];
     callee := insert_document;
     passed := ["database_name"; "collection_name"; "document"] |}.

Definition mcp_insert_many_documents : tooldef :=
  {| name := "mcp_insert_many_documents"; decorated := false;
     params := [required "database_name"; required "collection_name";
       required "documents"; optional "ordered" (TBool true)];
     callee := insert_many_documents;
     passed := ["database_name"; "collection_name"; "documents";
       "ordered"] |}.

Definition mcp_find_documents : tooldef :=
  {| name := "mcp_find_documents"; decorated := true;
     params := [required "database_name"; required "collection_name";
       required "query"; optional "projection" TNull;
       optional "limit" (TInt 0); optional "sort" TNull];
     callee := find_documents;
     passed := ["database_name"; "collection_name"; "query"; "projection";
       "limit"; "sort"] |}.

Definition mcp_find_one_document : tooldef :=
  {| name := "mcp_find_one_document"; decorated := true;
     params := [required "database_name"; required "collection_name";
       required "query"; optional "projection" TNull];
     callee := find_one_document;
     passed := ["database_name"; "collection_name"; "query"; "projection"] |}.

Definition mcp_count_documents : tooldef :=
  {| name := "mcp_count_documents"; decorated := true;
     params := [required "database_name"; required "collection_name";
       required "query"];
     callee := count_documents;
     passed := ["database_name"; "collection_name"; "query"] |}.

Definition mcp_update_document : tooldef :=
  {| name := "mcp_update_document"; decorated := false;
     params := [required "database_name"; required "collection_name";
       required "query"; required "update_data";
       optional "upsert" (TBool false); optional "update_many" (TBool false)];
     callee := update_document;
     passed := ["database_name"; "collection_name"; "query"; "update_data";
       "upsert"; "update_many"] |}.

Definition mcp_replace_document : tooldef :=
  {| name := "mcp_replace_document"; decorated := false;
     params := [required "database_name"; required "collection_name";
       required "query"; required "replacement";
       optional "upsert" (TBool false)];
     callee := replace_document;
     passed := ["database_name"; "collection_name"; "query"; "replacement";
       "upsert"] |}.

Definition mcp_delete_document : tooldef :=
  {| name := "mcp_delete_document"; decorated := false;
     params := [required "database_name"; required "collection_name";
       required "query"; optional "delete_many" (TBool false)];
     callee := delete_document;
     passed := ["database_name"; "collection_name"; "query";
       "delete_many"] |}.

Definition mcp_list_indexes : tooldef :=
  {| name := "mcp_list_indexes"; decorated := true;
     params := [required "database_name"; required "collection_name"];
     callee := list_indexes;
     passed := ["database_name"; "collection_name"] |}.

Definition mcp_create_index : tooldef :=
  {| name := "mcp_create_index"; decorated := false;
     params := [required "database_name"; required "collection_name";
       required "keys"; optional "options" TNull];
     callee := create_index;
     passed := ["database_name"; "collection_name"; "keys"; "options"] |}.

Definition mcp_create_text_index : tooldef :=
  {| name := "mcp_create_text_index"; decorated := false;
     params := [required "database_name"; required "collection_name";
       required "fields"; optional "options" TNull];
     callee := create_text_index;
     passed := ["database_name"; "collection_name"; "fields"; "options"] |}.

Definition mcp_create_compound_index : tooldef :=
  {| name := "mcp_create_compound_index"; decorated := false;
     params := [required "database_name"; required "collection_name";
       required "field_specs"; optional "options" TNull];
     callee := create_compound_index;
     passed := ["database_name"; "collection_name"; "field_specs";
       "options"] |}.

Definition mcp_drop_index : tooldef :=
  {| name := "mcp_drop_index"; decorated := false;
     params := [required "database_name"; required "collection_name";
       required "index_name"];
     callee := drop_index;
     passed := ["database_name"; "collection_name"; "index_name"] |}.

Definition mcp_reindex_collection : tooldef :=
  {| name := "mcp_reindex_collection"; decorated := false;
     params := [required "database_name"; required "collection_name"];
     callee := reindex_collection;
     passed := ["database_name"; "collection_name"] |}.

Definition mcp_aggregate_documents : tooldef :=
  {| name := "mcp_aggregate_documents"; decorated := true;
     params := [required "database_name"; required "collection_name";
       required "pipeline"; optional "options" TNull];
     callee := aggregate_documents;
     passed := ["database_name"; "collection_name"; "pipeline"; "options"] |}.

Definition mcp_distinct_values : tooldef :=
  {| name := "mcp_distinct_values"; decorated := true;
     params := [required "database_name"; required "collection_name";
       required "field"; optional "query" TNull];
     callee := distinct_values;
     passed := ["database_name"; "collection_name"; "field"; "query"] |}.

Definition mcp_get_server_status : tooldef :=
  {| name := "mcp_get_server_status"; decorated := true;
     params := [];
     callee := get_server_status;
     passed := [] |}.

Definition mcp_get_replica_set_status : tooldef :=
  {| name := "mcp_get_replica_set_status"; decorated := true;
     params := [];
     callee := get_replica_set_status;
     passed := [] |}.

Definition mcp_ping_database : tooldef :=
  {| name := "mcp_ping_database"; decorated := true;
     params := [optional "database_name" TNull];
     callee := ping_database;
     passed := ["database_name"] |}.

Definition mcp_test_mongodb_connection : tooldef :=
  {| name := "mcp_test_mongodb_connection"; decorated := true;
     params := [];
     callee := test_mongodb_connection;
     passed := [] |}.

Definition mcp_get_connection_details : tooldef :=
  {| name := "mcp_get_connection_details"; decorated := true;
     params := [];
     callee := get_connection_details;
     passed := [] |}.

(** The [def]s of the module, in the order they are executed. *)
Definition module_defs : list tooldef :=
  [mcp_list_databases; mcp_list_collections; mcp_create_database;
   mcp_drop_database; mcp_get_database_stats; mcp_create_collection;
   mcp_drop_collection; mcp_rename_collection; mcp_get_collection_stats;
   mcp_insert_document; mcp_insert_many_documents; mcp_find_documents;
   mcp_find_one_document; mcp_count_documents; mcp_update_document;
   mcp_replace_document; mcp_delete_document; mcp_list_indexes;
   mcp_create_index; mcp_create_text_index; mcp_create_compound_index;
   mcp_drop_index; mcp_reindex_collection; mcp_aggregate_documents;
   mcp_distinct_values; mcp_get_server_status;
   mcp_get_replica_set_status; mcp_ping_database;
   mcp_test_mongodb_connection; mcp_get_connection_details].

(** The list [mongo_tools] at the end of the module: the whole catalog. *)
Definition mongo_tools : list tooldef :=
  [mcp_list_databases; mcp_list_collections; mcp_create_database;
   mcp_drop_database; mcp_get_database_stats; mcp_create_collection;
   mcp_drop_collection; mcp_rename_collection; mcp_get_collection_stats;
   mcp_insert_document; mcp_insert_many_documents; mcp_find_documents;
   mcp_find_one_document; mcp_count_documents; mcp_update_document;
   mcp_replace_document; mcp_delete_document; mcp_list_indexes;
   mcp_create_index; mcp_create_text_index; mcp_create_compound_index;
   mcp_drop_index; mcp_reindex_collection; mcp_aggregate_documents;
   mcp_distinct_values; mcp_get_server_status;
   mcp_get_replica_set_status; mcp_ping_database;
   mcp_test_mongodb_connection; mcp_get_connection_details].

(** [@app.tool()]: the function is added to the tools of the FastMCP
    application. *)
Definition app_tool (d : tooldef) (registry : list tooldef) : list tooldef :=
  registry ++ [d].

(** Executing one [def], with or without its decorator. *)
Definition define (registry : list tooldef) (d : tooldef) : list tooldef :=
  if decorated d then app_tool d registry else registry.

(** The application once the module is imported. *)
Definition app : list tooldef := foldl define [] module_defs.

(** The record logged at the end of the import:
    [logger.info(f"Registered {len(mongo_tools)} MongoDB tools with MCP
    server")]. *)
Definition import_record : level * list fragment :=
  (INFO, [Lit "Registered "; Num (Z.of_nat (length mongo_tools));
          Lit " MongoDB tools with MCP server"]).

(** A tool can be invoked remotely when the application has it under its
    name. *)
Definition registered (n : string) : bool :=
  bool_decide (n ∈ name <$> app).

(** Signals whose default action ends the process.  The module installs
    [signal_handler] for two of them, [SIGINT] and [SIGTERM]. *)
Inductive signum : Type := SIGHUP | SIGINT | SIGQUIT | SIGTERM.

(** The number of a signal. *)
Definition signal_number (sig : signum) : Z :=
  match sig with
  | SIGHUP => 1
  | SIGINT => 2
  | SIGQUIT => 3
  | SIGTERM => 15
  end.

(** The web framework under the application, an external collaborator:
    whether the application object has an [asgi_app] attribute, the import
    and wrapping of the CORS middleware, and [app.run], which serves calls
    until it returns or raises. *)
Class Framework `{Driver} : Type := {
  has_asgi_app : bool;
  wrap_cors : M unit;
  app_run : string -> option (string * Z) -> M unit
}.

Section server.
Context `{Driver}.

(** The constants imported from mongo_mcp.config. *)
Variable cfg : Config.

(** The functions imported from mongo_mcp.tools. *)
Variable tools_call : tools_fn -> list transport -> M transport.

(** The value of a variable in the body of a function. *)
Fixpoint lookup_var (x : string) (env : list (string * transport))
    : option transport :=
  match env with
  | [] => None
  | (y, v) :: r => if String.eqb x y then Some v else lookup_var x r
  end.

(** A wrapper applied to the values of its parameters, in their order: the
    body returns what the function of mongo_mcp.tools returns on the
    parameters it is passed. *)
Definition apply (d : tooldef) (vals : list transport) : M transport :=
  let env := zip (fst <$> params d) vals in
  match mapM (fun x => lookup_var x env) (passed d) with
  | Some args => tools_call (callee d) args
  | None => raise (Exception "NameError")
  end.

(** Modelled from the spec: the binding of the named arguments of a call
    to the parameters of a wrapper, which the framework under the
    application does (FastMCP, not among the sources).  Following the
    specification, only the presence of the required arguments is checked:
    a parameter takes its argument, or else its default, and [None] is a
    required parameter without argument.  The values are taken as they are
    given, and arguments that name no parameter are not looked at. *)
Definition bind_arguments (ps : list (string * option transport))
    (arguments : gmap string transport) : option (list transport) :=
  mapM (fun p => match arguments !! fst p with
                 | Some v => Some v
                 | None => snd p
                 end) ps.

(** Modelled from the spec: a call of a wrapper with named arguments, as
    the transport adapter makes it (the adapter is the FastMCP framework,
    not among the sources).  A missing required argument is a
    [ValidationError]. *)
Definition invoke (d : tooldef) (arguments : gmap string transport)
    : M transport :=
  match bind_arguments (params d) arguments with
  | Some vals => apply d vals
  | None => raise (ValidationError "a required argument is missing")
  end.

(** Modelled from the spec: a call of the tool named [n] through the
    application, which the transport adapter makes (the FastMCP framework,
    not among the sources): the tool is looked up by its name among the
    registered ones and invoked. *)
Definition call_tool (n : string) (arguments : gmap string transport)
    : M transport :=
  match List.find (fun d => String.eqb (name d) n) app with
  | Some d => invoke d arguments
  | None => raise (Exception "unknown tool")
  end.

(** [signal_handler(sig, frame)]. *)
Definition signal_handler (sig : signum) (frame : unit) : M unit :=
  logger_info [Lit "Shutting down MCP server"];;
  close_connection;;
  sys_exit 0.

(** [signal.signal(signal.SIGINT, signal_handler)] and the same for
    [SIGTERM]. *)
Definition installed_handlers : list (signum * (signum -> unit -> M unit)) :=
  [(SIGINT, signal_handler); (SIGTERM, signal_handler)].

Definition same_signal (a b : signum) : bool :=
  signal_number a =? signal_number b.

(** What runs when the signal arrives; [None] when no handler is installed
    for it and the default action applies. *)
Definition deliver (sig : signum) : option (M unit) :=
  match List.find (fun h => same_signal (fst h) sig) installed_handlers with
  | Some (_, h) => Some (h sig tt)
  | None => None
  end.

Context `{!Framework}.

Definition network_transport (t : string) : bool :=
  String.eqb t "sse" || String.eqb t "streamable-http".

(** The body of the outer [try] of [start_server]: the CORS middleware,
    whose failure is only logged, then [app.run] on the configured
    transport. *)
Definition serve : M unit :=
  try_except
    (if has_asgi_app
     then wrap_cors;;
          logger_info [Lit "CORS middleware enabled for external access"]
     else mret tt)
    (fun cors_error =>
       logger_warning [Lit "Could not add CORS middleware: "; Exn cors_error]);;
  if network_transport (MCP_TRANSPORT cfg)
  then
    logger_info [Lit "Starting MCP server with "; Lit (MCP_TRANSPORT cfg);
                 Lit " transport on "; Lit (MCP_HOST cfg); Lit ":";
                 Num (MCP_PORT cfg)];;
    app_run (MCP_TRANSPORT cfg) (Some (MCP_HOST cfg, MCP_PORT cfg))
  else
    logger_info [Lit "Starting MCP server with stdio transport"];;
    app_run "stdio" None.

(** [start_server()]. *)
Definition start_server : M unit :=
  try_except serve
    (fun e =>
       logger_error [Lit "Failed to start MCP server: "; Exn e];;
       close_connection;;
       sys_exit 1).

End server.

End server.

(** ** The process: the modules imported, then events served *)
Module process.

Import config json_encoder runtime db server.

Section process.
Context `{Driver}.

(** A running interpreter: the environment as it is now, the module
    globals of mongo_mcp.config as they were bound at import, the state of
    the package, and the exit code once the process has exited. *)
Record process : Type := {
  environ_now : environ;
  settings : Config;
  memory : state;
  exit_code : option Z
}.

(** What can happen to the process: its environment is changed, a tool is
    called through the application, a signal arrives. *)
Inductive event : Type :=
  | Putenv (k v : string)
  | Unsetenv (k : string)
  | CallTool (n : string) (arguments : gmap string transport)
  | Signal (sig : signum).

(** The modules are imported: config.py reads the environment. *)
Definition start (env : environ) (d : store) : option process :=
  cfg ← load env;
  Some {| environ_now := env; settings := cfg;
          memory := initial_state d; exit_code := None |}.

(** The process after a tool call or a signal handler: a [SystemExit]
    that nothing caught ends it. *)
Definition after {A : Type} (p : process) (r : result A * state) : process :=
  {| environ_now := environ_now p; settings := settings p;
     memory := snd r;
     exit_code := match fst r with
                  | Raise (SystemExit code) => Some code
                  | _ => None
                  end |}.

(** The process ended by the default action of a signal: nothing of the
    program runs, and the status is the negated signal number. *)
Definition killed (sig : signum) (p : process) : process :=
  {| environ_now := environ_now p; settings := settings p;
     memory := memory p; exit_code := Some (- signal_number sig) |}.

Definition set_environ (env : environ) (p : process) : process :=
  {| environ_now := env; settings := settings p; memory := memory p;
     exit_code := exit_code p |}.

Definition step (p : process) (ev : event) : process :=
  match exit_code p with
  | Some _ => p
  | None =>
      match ev with
      | Putenv k v => set_environ (<[k := v]> (environ_now p)) p
      | Unsetenv k => set_environ (delete k (environ_now p)) p
      | CallTool n arguments =>
          after p (call_tool (tools.call (settings p)) n arguments (memory p))
      | Signal sig =>
          match deliver sig with
          | Some handler => after p (handler (memory p))
          | None => killed sig p
          end
      end
  end.

Definition run (p : process) (evs : list event) : process :=
  foldl step p evs.

End process.

(** A database stub for examples: every connection succeeds, a query has
    three documents in its cursor, every other command answers [None]. *)
Definition stub_driver : Driver :=
  {| store := unit;
     connect := fun _ _ => true;
     command := fun f _ d =>
       match f with
       | find_documents =>
           (inl (NList [NDict [("n", NInt 1)]; NDict [("n", NInt 2)];
                        NDict [("n", NInt 3)]]), d)
       | _ => (inl NNone, d)
       end |}.

(** The configuration when only the maximum number of documents is set, to
    two. *)
Definition capped_config : Config :=
  default defaults (load (<["MONGODB_MAX_DOCUMENTS_LIMIT" := "2"]> ∅)).

(** The fresh state of a process over the stub. *)
Definition stub_initial : @state stub_driver := @initial_state stub_driver tt.

(** A framework for examples whose [app.run] cannot bind its port. *)
Definition failing_framework : @Framework stub_driver :=
  {| has_asgi_app := false;
     wrap_cors := mret tt;
     app_run := fun _ _ => raise (Exception "address already in use") |}.

End process.

(** ** More of mongo_mcp.config: the settings as they are read, the logging
       settings, and the configuration log *)
Module settings.

Import config runtime.

(** The text a boolean setting or feature flag accepts as true: the word
    "true" in any letter case, and nothing else. *)
Definition reads_true (s : string) : bool :=
  match s with
  | String c1 (String c2 (String c3 (String c4 EmptyString))) =>
      (Ascii.eqb c1 "t" || Ascii.eqb c1 "T") &&
      (Ascii.eqb c2 "r" || Ascii.eqb c2 "R") &&
      (Ascii.eqb c3 "u" || Ascii.eqb c3 "U") &&
      (Ascii.eqb c4 "e" || Ascii.eqb c4 "E")
  | _ => false
  end.

(** [str.upper()], on the ASCII letters. *)
Definition upper_ascii (c : ascii) : ascii :=
  let n := nat_of_ascii c in
  if (97 <=? n)%nat && (n <=? 122)%nat then ascii_of_nat (n - 32) else c.

Fixpoint upper (s : string) : string :=
  match s with
  | EmptyString => EmptyString
  | String c r => String (upper_ascii c) (upper r)
  end.

(** The module globals of the logging section of config.py, and whether
    the console handler is added ([MCP_ENV] reads "development"). *)
Record LogConfig : Type := {
  LOG_LEVEL : string;
  LOG_MAX_FILE_SIZE : Z;
  LOG_BACKUP_COUNT : Z;
  console_handler : bool
}.

Definition load_log (env : environ) : option LogConfig :=
  max_size ← py.int (environ_get env "LOG_MAX_FILE_SIZE" "10485760");
  backups ← py.int (environ_get env "LOG_BACKUP_COUNT" "5");
  Some {|
    LOG_LEVEL := upper (environ_get env "LOG_LEVEL" "INFO");
    LOG_MAX_FILE_SIZE := max_size;
    LOG_BACKUP_COUNT := backups;
    console_handler :=
      String.eqb (py.lower (environ_get env "MCP_ENV" "production"))
                 "development"
  |}.

(** Every global of the module that is read from the environment; [None]
    when one of the [int()] conversions raises.  What the module does with
    them afterwards is left out: the log directory, the handlers, and
    [logger.setLevel(getattr(logging, LOG_LEVEL))], which raises for a
    level the logging module does not have. *)
Definition load_all (env : environ) : option (Config * LogConfig) :=
  c ← load env;
  l ← load_log env;
  Some (c, l).

(** The environment variables the module reads. *)
Definition setting_names : list string :=
  ["MONGODB_URI"; "MONGODB_DEFAULT_DB"; "MONGODB_MIN_POOL_SIZE";
   "MONGODB_MAX_POOL_SIZE"; "MONGODB_MAX_IDLE_TIME_MS";
   "MONGODB_SERVER_SELECTION_TIMEOUT_MS"; "MONGODB_SOCKET_TIMEOUT_MS";
   "MONGODB_CONNECT_TIMEOUT_MS"; "MONGODB_MAX_DOCUMENTS_LIMIT";
   "MONGODB_DEFAULT_BATCH_SIZE"; "MONGODB_TLS_ENABLED";
   "MONGODB_TLS_CA_FILE"; "MONGODB_TLS_CERT_FILE"; "MONGODB_TLS_KEY_FILE";
   "MONGODB_AUTH_SOURCE"; "MONGODB_AUTH_MECHANISM";
   "MONGODB_READ_PREFERENCE"; "MONGODB_WRITE_CONCERN_W";
   "MONGODB_WRITE_CONCERN_J"; "MONGODB_READ_CONCERN_LEVEL";
   "LOG_LEVEL"; "LOG_MAX_FILE_SIZE"; "LOG_BACKUP_COUNT";
   "ENABLE_DANGEROUS_OPERATIONS"; "ENABLE_ADMIN_OPERATIONS";
   "ENABLE_INDEX_OPERATIONS"; "MCP_TRANSPORT"; "MCP_HOST"; "MCP_PORT";
   "MCP_ENV"].

(** [f"{b}"] for a boolean. *)
Definition bool_text (b : bool) : string := if b then "True" else "False".

(** [MONGODB_DEFAULT_DB or 'Not set']. *)
Definition or_not_set (o : option string) : string :=
  match o with
  | Some s => if py.truthy o then s else "Not set"
  | None => "Not set"
  end.

Section log.
Context `{Driver}.

(** [log_configuration()]. *)
Definition log_configuration (c : Config) (l : LogConfig) : M unit :=
  logger_info [Lit "=== MongoDB MCP Configuration ==="];;
  logger_info [Lit "Transport: "; Lit (MCP_TRANSPORT c)];;
  (if server.network_transport (MCP_TRANSPORT c)
   then logger_info [Lit "Server Host: "; Lit (MCP_HOST c)];;
        logger_info [Lit "Server Port: "; Num (MCP_PORT c)]
   else mret tt);;
  logger_info [Lit "MongoDB URI: "; Lit (MONGODB_URI c)];;
  logger_info [Lit "Default Database: ";
               Lit (or_not_set (MONGODB_DEFAULT_DB c))];;
  logger_info [Lit "Connection Pool: "; Num (MONGODB_MIN_POOL_SIZE c);
               Lit "-"; Num (MONGODB_MAX_POOL_SIZE c)];;
  logger_info [Lit "Server Selection Timeout: ";
               Num (MONGODB_SERVER_SELECTION_TIMEOUT_MS c); Lit "ms"];;
  logger_info [Lit "Socket Timeout: "; Num (MONGODB_SOCKET_TIMEOUT_MS c);
               Lit "ms"];;
  logger_info [Lit "Connect Timeout: "; Num (MONGODB_CONNECT_TIMEOUT_MS c);
               Lit "ms"];;
  logger_info [Lit "Max Documents Limit: ";
               Num (MONGODB_MAX_DOCUMENTS_LIMIT c)];;
  logger_info [Lit "Default Batch Size: ";
               Num (MONGODB_DEFAULT_BATCH_SIZE c)];;
  logger_info [Lit "TLS Enabled: "; Lit (bool_text (MONGODB_TLS_ENABLED c))];;
  logger_info [Lit "Read Preference: "; Lit (MONGODB_READ_PREFERENCE c)];;
  logger_info [Lit "Write Concern W: "; Lit (MONGODB_WRITE_CONCERN_W c)];;
  logger_info [Lit "Write Concern J: ";
               Lit (bool_text (MONGODB_WRITE_CONCERN_J c))];;
  logger_info [Lit "Read Concern Level: ";
               Lit (MONGODB_READ_CONCERN_LEVEL c)];;
  logger_info [Lit "Dangerous Operations Enabled: ";
               Lit (bool_text (ENABLE_DANGEROUS_OPERATIONS c))];;
  logger_info [Lit "Admin Operations Enabled: ";
               Lit (bool_text (ENABLE_ADMIN_OPERATIONS c))];;
  logger_info [Lit "Index Operations Enabled: ";
               Lit (bool_text (ENABLE_INDEX_OPERATIONS c))];;
  logger_info [Lit "Log Level: "; Lit (LOG_LEVEL l)];;
  logger_info [Lit "=== Configuration End ==="].

End log.

End settings.

(** ** More of mongo_mcp.server: start-up without the CORS step *)
Module startup.

Import config runtime server.

(** The same framework when the application object has no [asgi_app]
    attribute. *)
Definition without_asgi_app `{Driver} (F : Framework) : Framework :=
  {| has_asgi_app := false;
     wrap_cors := @wrap_cors _ F;
     app_run := @app_run _ F |}.

(** A framework for examples in which the CORS middleware cannot be
    imported and [app.run] returns at once. *)
Definition cors_failing_framework : @Framework process.stub_driver :=
  {| has_asgi_app := true;
     wrap_cors := raise (Exception "No module named starlette");
     app_run := fun _ _ => mret tt |}.

(** A framework for examples whose [app.run] is interrupted. *)
Definition interrupted_framework : @Framework process.stub_driver :=
  {| has_asgi_app := false;
     wrap_cors := mret tt;
     app_run := fun _ _ => raise KeyboardInterrupt |}.

(** The state of a process over the stub once a tool has acquired the
    handle. *)
Definition stub_connected : @state process.stub_driver :=
  snd (@db.get_client process.stub_driver defaults process.stub_initial).

(** A computation that ends the process with the connection closed: it
    raises an exit in a state where the manager is closed. *)
Definition closes_then_exits `{Driver} (m : M unit) : Prop :=
  forall st, exists code st',
    m st = (Raise (SystemExit code), st') /\ client st' = Closed.

(** The shutdown as the specification has it for a signal: a handler runs
    that closes the connection and exits. *)
Definition shutdown_on_signal `{Driver} (sig : signum) : Prop :=
  exists handler, deliver sig = Some handler /\ closes_then_exits handler.

End startup.

(** * Theorems *)

Import config json_encoder runtime db server process.

(** ** The configuration snapshot *)

Lemma lookup_set_if_truthy key o (options : gmap string optval) k :
  set_if_truthy key o options !! k =
  if decide (key = k)
  then (if py.truthy o then OStr <$> o else options !! k)
  else options !! k.
Proof.
  unfold set_if_truthy. destruct o as [s|]; simpl.
  - destruct (negb (String.eqb s "")); case_decide; [subst k|..];
      rewrite ?lookup_insert_eq, ?lookup_insert_ne by done; done.
  - case_decide; done.
Qed.

Ltac options_lookup :=
  unfold get_connection_options; simpl;
  repeat match goal with
         | |- context [MONGODB_TLS_ENABLED ?c] =>
             destruct (MONGODB_TLS_ENABLED c)
         | |- context [0 <? ?x] => destruct (0 <? x)
         end;
  simpl; repeat (rewrite lookup_set_if_truthy; simpl);
  repeat match goal with
         | |- context [py.truthy ?o] => destruct (py.truthy o)
         end;
  rewrite ?lookup_insert_eq, ?lookup_insert_ne, ?lookup_empty by done;
  try done.

Lemma load_empty : load ∅ = Some defaults.
Proof. vm_compute. reflexivity. Qed.

(** With nothing configured the options are the six unconditional ones. *)
Lemma default_options :
  map_to_list <$> (get_connection_options <$> load ∅) =
  Some [("serverSelectionTimeoutMS", OInt 30000);
        ("connectTimeoutMS", OInt 20000); ("minPoolSize", OInt 0);
        ("maxIdleTimeMS", OInt 30000); ("maxPoolSize", OInt 100);
        ("authSource", OStr "admin")].
Proof. vm_compute. reflexivity. Qed.

(** C5, as stated, fails: even with TLS enabled and every setting given,
    the key file, the read preference, the write concern and the read
    concern are not among the options. *)
Lemma key_file_and_concerns_not_in_options :
  load tls_environ = Some tls_config /\
  MONGODB_TLS_ENABLED tls_config = true /\
  MONGODB_TLS_KEY_FILE tls_config = Some "/etc/ssl/client.key" /\
  appears (OStr "/etc/ssl/client.key") (get_connection_options tls_config)
    = false /\
  appears (OStr (MONGODB_READ_PREFERENCE tls_config))
    (get_connection_options tls_config) = false /\
  appears (OStr (MONGODB_WRITE_CONCERN_W tls_config))
    (get_connection_options tls_config) = false /\
  appears (OStr (MONGODB_READ_CONCERN_LEVEL tls_config))
    (get_connection_options tls_config) = false /\
  whole_snapshot_in_options tls_config = false.
Proof. repeat split; vm_compute; reflexivity. Qed.

(** C5, amended: the options always carry the pool bounds, the idle time,
    the server-selection and connect timeouts and the auth source; the
    socket timeout only when it is positive; [tls] and the CA and
    certificate files only when TLS is enabled (a file only when it is
    set); the auth mechanism only when it is set. *)
Theorem connection_options_contents (c : Config) :
  let options := get_connection_options c in
  options !! "minPoolSize" = Some (OInt (MONGODB_MIN_POOL_SIZE c)) /\
  options !! "maxPoolSize" = Some (OInt (MONGODB_MAX_POOL_SIZE c)) /\
  options !! "maxIdleTimeMS" = Some (OInt (MONGODB_MAX_IDLE_TIME_MS c)) /\
  options !! "serverSelectionTimeoutMS"
    = Some (OInt (MONGODB_SERVER_SELECTION_TIMEOUT_MS c)) /\
  options !! "connectTimeoutMS" = Some (OInt (MONGODB_CONNECT_TIMEOUT_MS c)) /\
  options !! "authSource" = Some (OStr (MONGODB_AUTH_SOURCE c)) /\
  options !! "socketTimeoutMS"
    = (if 0 <? MONGODB_SOCKET_TIMEOUT_MS c
       then Some (OInt (MONGODB_SOCKET_TIMEOUT_MS c)) else None) /\
  options !! "tls"
    = (if MONGODB_TLS_ENABLED c then Some (OBool true) else None) /\
  options !! "tlsCAFile"
    = (if MONGODB_TLS_ENABLED c && py.truthy (MONGODB_TLS_CA_FILE c)
       then OStr <$> MONGODB_TLS_CA_FILE c else None) /\
  options !! "tlsCertificateKeyFile"
    = (if MONGODB_TLS_ENABLED c && py.truthy (MONGODB_TLS_CERT_FILE c)
       then OStr <$> MONGODB_TLS_CERT_FILE c else None) /\
  options !! "authMechanism"
    = (if py.truthy (MONGODB_AUTH_MECHANISM c)
       then OStr <$> MONGODB_AUTH_MECHANISM c else None).
Proof.
  simpl. repeat split; options_lookup.
Qed.

(** X4: the options have no key beyond these eleven, whatever the
    configuration: in particular none for the TLS key file, the read
    preference, the write concern or the read concern. *)
Lemma connection_options_keys (c : Config) (k : string) :
  is_Some (get_connection_options c !! k) ->
  k ∈ ["minPoolSize"; "maxPoolSize"; "maxIdleTimeMS";
       "serverSelectionTimeoutMS"; "connectTimeoutMS"; "authSource";
       "socketTimeoutMS"; "tls"; "tlsCAFile"; "tlsCertificateKeyFile";
       "authMechanism"].
Proof.
  intros [v Hv].
  match goal with |- k ∈ ?l => destruct (decide (k ∈ l)) as [Hk|Hk] end;
    [exact Hk|exfalso].
  repeat (apply not_elem_of_cons in Hk as [? Hk]).
  revert Hv. unfold get_connection_options.
  destruct (MONGODB_TLS_ENABLED c), (0 <? MONGODB_SOCKET_TIMEOUT_MS c);
    repeat (rewrite lookup_set_if_truthy; case_decide; [congruence|]);
    rewrite !lookup_insert_ne by congruence;
    rewrite lookup_empty; discriminate.
Qed.

(** ** The feature flags *)

Lemma flag_is_flag_value env name (default : bool) :
  flag env name (if default then "true" else "false")
  = flag_value env name default.
Proof.
  unfold flag, flag_value, environ_get.
  destruct (env !! name); [reflexivity|]. destruct default; reflexivity.
Qed.

(** The flags of a loaded configuration are those the module body
    computes from the environment. *)
Lemma load_flags env c :
  load env = Some c ->
  ENABLE_DANGEROUS_OPERATIONS c = flag env "ENABLE_DANGEROUS_OPERATIONS" "false" /\
  ENABLE_ADMIN_OPERATIONS c = flag env "ENABLE_ADMIN_OPERATIONS" "true" /\
  ENABLE_INDEX_OPERATIONS c = flag env "ENABLE_INDEX_OPERATIONS" "true".
Proof.
  unfold load. intros Hload.
  repeat match type of Hload with
         | (match ?x with _ => _ end) = _ => destruct x; simpl in Hload
         | (_ ≫= _) = _ => apply bind_Some in Hload as (? & _ & Hload)
         end;
  try discriminate.
  injection Hload as <-. simpl. auto.
Qed.

Section process_facts.
Context `{Driver}.

(** No event writes the module globals of mongo_mcp.config. *)
Lemma step_settings (p : process) (ev : event) :
  settings (step p ev) = settings p.
Proof.
  unfold step. destruct (exit_code p); [reflexivity|].
  destruct ev; simpl; try reflexivity.
  destruct (deliver sig); reflexivity.
Qed.

Lemma run_settings (evs : list event) (p : process) :
  settings (run p evs) = settings p.
Proof.
  unfold run. revert p.
  induction evs as [|ev evs IH]; intros p; simpl; [reflexivity|].
  rewrite IH. apply step_settings.
Qed.

(** C8: with nothing configured index and admin operations are enabled and
    dangerous operations disabled; the flags are read from the environment
    when the process starts, and no later event, a change of the
    environment included, changes them. *)
Theorem feature_flags_default_and_fixed
    (env : environ) (d : store) (p : process) (evs : list event) :
  start env d = Some p ->
  settings (run p evs) = settings p /\
  ENABLE_INDEX_OPERATIONS (settings (run p evs))
    = flag_value env "ENABLE_INDEX_OPERATIONS" true /\
  ENABLE_ADMIN_OPERATIONS (settings (run p evs))
    = flag_value env "ENABLE_ADMIN_OPERATIONS" true /\
  ENABLE_DANGEROUS_OPERATIONS (settings (run p evs))
    = flag_value env "ENABLE_DANGEROUS_OPERATIONS" false.
Proof.
  unfold start. intros Hstart.
  apply bind_Some in Hstart as (c & Hload & Hp).
  injection Hp as <-. rewrite run_settings. simpl.
  destruct (load_flags env c Hload) as (Hd & Ha & Hi).
  rewrite Hd, Ha, Hi.
  split; [reflexivity|].
  repeat split; apply (flag_is_flag_value env _ true)
                || apply (flag_is_flag_value env _ false).
Qed.

End process_facts.

(** Started with an empty environment, the process keeps the default flags
    although the environment is changed afterwards and tools are called. *)
Lemma feature_flags_default_and_fixed_witness :
  match @start stub_driver ∅ tt with
  | Some p =>
      let evs := [Putenv "ENABLE_DANGEROUS_OPERATIONS" "true";
                  CallTool "mcp_list_databases" ∅;
                  Putenv "ENABLE_INDEX_OPERATIONS" "false"] in
      settings (run p evs) = settings p /\
      ENABLE_INDEX_OPERATIONS (settings (run p evs)) = true /\
      ENABLE_ADMIN_OPERATIONS (settings (run p evs)) = true /\
      ENABLE_DANGEROUS_OPERATIONS (settings (run p evs)) = false
  | None => False
  end.
Proof.
  destruct (@start stub_driver ∅ tt) as [p|] eqn:Hstart.
  - intros evs.
    exact (@feature_flags_default_and_fixed stub_driver ∅ tt p evs Hstart).
  - vm_compute in Hstart. discriminate Hstart.
Defined.

(** ** The connection manager *)

Section db_facts.
Context `{Driver}.

(** [close()] returns normally and leaves the manager closed; only a live
    handle makes it reach the driver. *)
Lemma close_connection_returns (st : state) :
  exists st', close_connection st = (Ok tt, st') /\
    client st' = Closed /\
    data st' = data st /\
    records st' = records st /\
    calls st' = match client st with
                | ConnectionReady h => (calls st ++ [DrvClose h])%list
                | _ => calls st
                end.
Proof.
  unfold close_connection, mbind, M_bind, get, modify; simpl.
  destruct (client st) eqn:Hc; simpl; eexists; split; try reflexivity;
    simpl; rewrite ?Hc; auto.
Qed.

(** On a closed manager [close()] changes nothing, however often it is
    called. *)
Lemma close_times_closed (k : nat) (st : state) :
  client st = Closed -> close_times k st = (Ok tt, st).
Proof.
  intros Hc. induction k as [|k IH]; simpl; [reflexivity|].
  unfold mbind, M_bind. unfold close_connection at 1.
  unfold mbind, M_bind, get; simpl. rewrite Hc. simpl. exact IH.
Qed.

(** C6: [close()] called [k >= 1] times leaves the state one call leaves
    and returns normally, whatever the state it is first called in; where
    [acquire] was never invoked the driver is not reached. *)
Theorem close_idempotent (k : nat) (st : state) :
  (1 <= k)%nat ->
  close_times k st = close_connection st /\
  fst (close_times k st) = Ok tt /\
  (client st = Uninitialized -> calls (snd (close_times k st)) = calls st).
Proof.
  intros Hk. destruct k as [|k]; [lia|].
  destruct (close_connection_returns st) as (st' & Hclose & Hc & _ & _ & Hcalls).
  assert (Hk1 : close_times (S k) st = close_connection st).
  { simpl. unfold mbind at 1, M_bind at 1. rewrite Hclose.
    apply close_times_closed, Hc. }
  rewrite Hk1, Hclose. simpl. repeat split.
  intros Hu. rewrite Hcalls, Hu. reflexivity.
Qed.

End db_facts.

(** Three calls on a manager that never acquired a handle. *)
Lemma close_idempotent_witness :
  (1 <= 3)%nat /\
  @close_times stub_driver 3 stub_initial
    = @close_connection stub_driver stub_initial /\
  fst (@close_times stub_driver 3 stub_initial) = Ok tt /\
  (client stub_initial = Uninitialized ->
   calls (snd (@close_times stub_driver 3 stub_initial))
     = calls stub_initial).
Proof.
  split; [lia|].
  apply (@close_idempotent stub_driver 3 stub_initial). lia.
Defined.

(** ** Shutdown *)

Section shutdown.
Context `{Driver}.

(** Logging, closing, exiting: the common tail of both shutdown paths. *)
Lemma log_close_exit (l : level) (msg : list fragment) (code : Z)
    (st : state) :
  exists st',
    (modify (add_record l msg);; close_connection;; sys_exit code) st
      = (Raise (A := unit) (SystemExit code), st') /\
    shut_down l msg st st'.
Proof.
  destruct (close_connection_returns (add_record l msg st))
    as (st' & Hclose & Hc & Hd & Hr & Hcalls).
  exists st'. split.
  - unfold mbind, M_bind, modify at 1. simpl. rewrite Hclose. reflexivity.
  - unfold shut_down. simpl in *. auto.
Qed.

Context `{!Framework}.
Variable cfg : Config.

(** When the body of the [try] raises an exception, [start_server] logs
    it, closes the connection and exits with code 1. *)
Lemma start_server_on_error (st st1 : state) (e : exn) :
  serve cfg st = (Raise e, st1) ->
  is_Exception e = true ->
  exists st2,
    start_server cfg st = (Raise (SystemExit 1), st2) /\
    shut_down ERROR [Lit "Failed to start MCP server: "; Exn e] st1 st2.
Proof.
  intros Hserve Hexc.
  destruct
    (log_close_exit ERROR [Lit "Failed to start MCP server: "; Exn e] 1 st1)
    as (st2 & Hrun & Hshut).
  exists st2. split; [|exact Hshut].
  unfold start_server, try_except. rewrite Hserve, Hexc. exact Hrun.
Qed.

(** C9, amended: on SIGINT and on SIGTERM, the signals the module installs
    its handler for, the handler closes the connection and then exits with
    code 0; and when an exception is raised in the [try] body of
    [start_server], it closes the connection and then exits with code 1.
    On both paths the exit is raised in a state where the manager is closed
    and a live handle has been released. *)
Theorem shutdown_closes_connection
    (sig : signum) (st0 st st1 : state) (e : exn) :
  (sig = SIGINT \/ sig = SIGTERM ->
   exists handler st',
     deliver sig = Some handler /\
     handler st0 = (Raise (SystemExit 0), st') /\
     shut_down INFO [Lit "Shutting down MCP server"] st0 st') /\
  (serve cfg st = (Raise e, st1) ->
   is_Exception e = true ->
   exists st2,
     start_server cfg st = (Raise (SystemExit 1), st2) /\
     shut_down ERROR [Lit "Failed to start MCP server: "; Exn e] st1 st2).
Proof.
  split.
  - intros Hsig.
    destruct
      (log_close_exit INFO [Lit "Shutting down MCP server"] 0 st0)
      as (st' & Hrun & Hshut).
    exists (signal_handler sig tt), st'. split; [|split].
    + destruct Hsig as [-> | ->]; reflexivity.
    + exact Hrun.
    + exact Hshut.
  - apply start_server_on_error.
Qed.

(** No handler is installed for any other signal. *)
Lemma deliver_unhandled (sig : signum) :
  deliver sig = None <-> sig = SIGHUP \/ sig = SIGQUIT.
Proof.
  destruct sig; cbn; split; try discriminate; auto;
    intros [Hs|Hs]; discriminate Hs.
Qed.

(** An exit that is already under way is not intercepted: [start_server]
    lets a [SystemExit] pass. *)
Lemma start_server_passes_exit (st st1 : state) (code : Z) :
  serve cfg st = (Raise (SystemExit code), st1) ->
  start_server cfg st = (Raise (SystemExit code), st1).
Proof.
  intros Hserve. unfold start_server, try_except. rewrite Hserve. reflexivity.
Qed.

(** When [app.run] returns, [start_server] returns: nothing is closed on
    this path. *)
Lemma start_server_returns (st st1 : state) :
  serve cfg st = (Ok tt, st1) -> start_server cfg st = (Ok tt, st1).
Proof.
  intros Hserve. unfold start_server, try_except. rewrite Hserve. reflexivity.
Qed.

End shutdown.

(** SIGTERM on a fresh process, and a start-up that fails because the port
    is taken. *)
Lemma shutdown_closes_connection_witness :
  let cfg := defaults in
  let e := Exception "address already in use" in
  let st1 := snd (@serve stub_driver cfg failing_framework stub_initial) in
  (exists handler st',
     @deliver stub_driver SIGTERM = Some handler /\
     handler stub_initial = (Raise (SystemExit 0), st') /\
     shut_down INFO [Lit "Shutting down MCP server"] stub_initial st') /\
  (exists st2,
     @start_server stub_driver cfg failing_framework stub_initial
       = (Raise (SystemExit 1), st2) /\
     shut_down ERROR [Lit "Failed to start MCP server: "; Exn e] st1 st2).
Proof.
  intros cfg e st1.
  destruct (@shutdown_closes_connection stub_driver failing_framework cfg
              SIGTERM stub_initial stub_initial st1 e) as [Hsig Hstart].
  split; [apply Hsig; right; reflexivity|].
  apply Hstart; reflexivity.
Defined.

(** C9, as stated, fails.  No handler is installed for SIGHUP: it ends a
    process that holds a live handle with the handle still open and nothing
    sent to the driver.  And an interrupt raised by [app.run] is no
    [Exception]: it leaves [start_server] as it is, the handle still
    open. *)
Lemma sighup_ends_without_close :
  ~ @startup.shutdown_on_signal stub_driver SIGHUP /\
  (let p := {| environ_now := ∅; settings := defaults;
               memory := startup.stub_connected; exit_code := None |} in
   client startup.stub_connected
     = ConnectionReady {| handle_uri := MONGODB_URI defaults;
                          handle_options := get_connection_options defaults |}
   /\
   exit_code (step p (Signal SIGHUP)) = Some (-1) /\
   memory (step p (Signal SIGHUP)) = startup.stub_connected) /\
  (fst (@start_server stub_driver defaults startup.interrupted_framework
          startup.stub_connected) = Raise KeyboardInterrupt /\
   client (snd (@start_server stub_driver defaults startup.interrupted_framework
                  startup.stub_connected)) = client startup.stub_connected /\
   calls (snd (@start_server stub_driver defaults startup.interrupted_framework
                 startup.stub_connected)) = calls startup.stub_connected).
Proof.
  split; [|split].
  - intros (handler & Hdeliver & _). discriminate Hdeliver.
  - cbv zeta. repeat split.
  - repeat split.
Qed.

(** ** The tools registered with the application *)

(** C2, as stated, fails: [mcp_drop_database] is in the catalog, and the
    application does not have it. *)
Lemma drop_database_not_registered :
  mcp_drop_database ∈ mongo_tools /\
  registered (name mcp_drop_database) = false.
Proof.
  split; [|vm_compute; reflexivity].
  unfold mongo_tools. do 3 apply list_elem_of_further. apply list_elem_of_here.
Qed.

(** C2, amended: of the thirty operations of the catalog the application
    has the fifteen whose [def] carries the decorator, which are the ones
    that only read: listing databases and collections, database and
    collection statistics, find, find-one and count, listing indexes,
    aggregation and distinct, and the five administration and monitoring
    operations.  The other fifteen are defined and not registered. *)
Theorem registered_tools :
  length mongo_tools = 30%nat /\
  mongo_tools = module_defs /\
  name <$> app =
    ["mcp_list_databases"; "mcp_list_collections"; "mcp_get_database_stats";
     "mcp_get_collection_stats"; "mcp_find_documents";
     "mcp_find_one_document"; "mcp_count_documents"; "mcp_list_indexes";
     "mcp_aggregate_documents"; "mcp_distinct_values";
     "mcp_get_server_status"; "mcp_get_replica_set_status";
     "mcp_ping_database"; "mcp_test_mongodb_connection";
     "mcp_get_connection_details"] /\
  name <$> filter (fun d => registered (name d) = false) mongo_tools =
    ["mcp_create_database"; "mcp_drop_database"; "mcp_create_collection";
     "mcp_drop_collection"; "mcp_rename_collection"; "mcp_insert_document";
     "mcp_insert_many_documents"; "mcp_update_document";
     "mcp_replace_document"; "mcp_delete_document"; "mcp_create_index";
     "mcp_create_text_index"; "mcp_create_compound_index"; "mcp_drop_index";
     "mcp_reindex_collection"] /\
  Forall (fun d => registered (name d) = decorated d) mongo_tools.
Proof.
  split; [reflexivity|]. split; [reflexivity|].
  split; [vm_compute; reflexivity|]. split; [vm_compute; reflexivity|].
  unfold mongo_tools. repeat constructor.
Qed.

(** X12: the record logged at import counts the catalog, thirty, not the
    tools the application has, fifteen. *)
Lemma import_record_counts_catalog :
  import_record = (INFO, [Lit "Registered "; Num 30;
                          Lit " MongoDB tools with MCP server"]) /\
  length app = 15%nat.
Proof. split; reflexivity. Qed.

(** A call through the application of a tool it does not have reaches
    neither the wrapper nor the database. *)
Lemma call_unregistered `{Driver}
    (tools_call : tools_fn -> list transport -> M transport)
    (n : string) (arguments : gmap string transport) (st : state) :
  registered n = false ->
  call_tool tools_call n arguments st = (Raise (Exception "unknown tool"), st).
Proof.
  unfold registered, call_tool. intros Hn.
  apply bool_decide_eq_false in Hn.
  destruct (List.find _ app) as [d|] eqn:Hfind; [|reflexivity].
  exfalso. apply Hn.
  apply find_some in Hfind as [Hin Heq].
  apply String.eqb_eq in Heq. subst n.
  apply list_elem_of_fmap. exists d. split; [reflexivity|].
  apply list_elem_of_In, Hin.
Qed.

(** ** The wrappers *)

(** The cases of a statement about every [def] of the module. *)
Ltac each_def Hd :=
  unfold mongo_tools, module_defs in Hd;
  repeat (apply elem_of_cons in Hd as [->|Hd]);
  [..|apply elem_of_nil in Hd; destruct Hd].

(** The values of as many parameters as the signature has. *)
Ltac values_of_length vals Hlen :=
  simpl in Hlen;
  repeat (destruct vals as [|? vals]; simpl in Hlen; try discriminate Hlen).

Section wrappers.
Context `{Driver}.
Variable tools_call : tools_fn -> list transport -> M transport.

(** The body of a wrapper is the call of its function of mongo_mcp.tools
    on its own parameters, in their order. *)
Lemma apply_is_tools_call (d : tooldef) (vals : list transport) :
  d ∈ module_defs ->
  length vals = length (params d) ->
  apply tools_call d vals = tools_call (callee d) vals.
Proof.
  intros Hd Hlen. each_def Hd; values_of_length vals Hlen; reflexivity.
Qed.

(** C10: every wrapper returns, for all values of its parameters, what the
    function of mongo_mcp.tools of the same name returns on these values in
    the same order, raises what it raises and leaves the state it leaves;
    it passes exactly its parameters, in the order of its signature. *)
Theorem wrappers_pass_through (d : tooldef) (vals : list transport)
    (st : state) :
  d ∈ mongo_tools ->
  length vals = length (params d) ->
  apply tools_call d vals st = tools_call (callee d) vals st /\
  passed d = fst <$> params d /\
  name d = "mcp_" ++ fn_name (callee d).
Proof.
  intros Hd Hlen. split.
  - rewrite apply_is_tools_call; [reflexivity|exact Hd|exact Hlen].
  - each_def Hd; split; reflexivity.
Qed.

End wrappers.

(** [mcp_find_documents] on six values is [find_documents] on them. *)
Lemma wrappers_pass_through_witness :
  let vals := [TStr "shop"; TStr "orders"; TDict []; TNull; TInt 2; TNull] in
  apply (@tools.call stub_driver defaults) mcp_find_documents vals stub_initial
    = @tools.call stub_driver defaults find_documents vals stub_initial /\
  passed mcp_find_documents = fst <$> params mcp_find_documents /\
  name mcp_find_documents = "mcp_" ++ fn_name find_documents.
Proof.
  intros vals.
  apply (@wrappers_pass_through stub_driver (@tools.call stub_driver defaults)
           mcp_find_documents vals stub_initial).
  - unfold mongo_tools. do 11 apply list_elem_of_further.
    apply list_elem_of_here.
  - reflexivity.
Defined.

(** ** The gateway *)

Section gateway.
Context `{Driver}.
Variable cfg : Config.

(** A call with a required name missing or empty is rejected in the state
    it arrived in. *)
Lemma call_invalid (f : tools_fn) (args : list transport) (st : state) :
  tools.validate f args = false ->
  exists msg, tools.call cfg f args st = (Raise (ValidationError msg), st).
Proof.
  intros Hv. unfold tools.call. rewrite Hv. simpl. eexists. reflexivity.
Qed.

(** A valid call of a class that is not authorized is denied in the state
    it arrived in. *)
Lemma call_denied (f : tools_fn) (args : list transport) (st : state) :
  tools.validate f args = true ->
  tools.authorize cfg (tools.op_class_of f args) = false ->
  tools.call cfg f args st
    = (Raise (CapabilityDeniedError (tools.op_class_of f args)), st).
Proof.
  intros Hv Ha. unfold tools.call. rewrite Hv, Ha. reflexivity.
Qed.

(** A sequence that returns: its first part returned, and the rest ran in
    the state it left. *)
Lemma bind_ok {A B : Type} (m : M A) (k : A -> M B) (st st' : state) (b : B) :
  (m ≫= k) st = (Ok b, st') ->
  exists a st1, m st = (Ok a, st1) /\ k a st1 = (Ok b, st').
Proof.
  unfold mbind, M_bind. destruct (m st) as [[a|e] st1]; [|discriminate].
  intros Hk. exists a, st1. split; [reflexivity|exact Hk].
Qed.

(** What a call returns is the encoding of what the operation returns of
    the driver's answer. *)
Lemma call_ok (f : tools_fn) (args : list transport) (st st' : state)
    (r : transport) :
  tools.call cfg f args st = (Ok r, st') ->
  exists answer, r = encode (tools.returned cfg f args answer).
Proof.
  unfold tools.call.
  destruct (tools.validate f args); simpl; [|discriminate].
  destruct (tools.authorize cfg _); simpl; [|discriminate].
  intros Hcall.
  apply bind_ok in Hcall as (h & st1 & _ & Hcall).
  apply bind_ok in Hcall as (answer & st2 & _ & Hret).
  injection Hret as <- _. exists answer. reflexivity.
Qed.

Lemma bind_arguments_length ps (arguments : gmap string transport) vals :
  bind_arguments ps arguments = Some vals -> length vals = length ps.
Proof.
  unfold bind_arguments. intros Hb. symmetry.
  eapply length_mapM. exact Hb.
Qed.

(** The operations of the dangerous class: dropping a database, dropping a
    collection, deleting many documents. *)
Lemma dangerous_operations (f : tools_fn) (args : list transport) :
  tools.op_class_of f args = ClsDangerous <->
  f = drop_database \/ f = drop_collection \/
  (f = delete_document /\ args !! 3%nat = Some (TBool true)).
Proof.
  split.
  - destruct f; simpl; try discriminate; auto.
    destruct (args !! 3%nat) as [[| [|] | | | | |]|]; try discriminate; auto.
  - intros [->|[->|[-> Hm]]]; simpl; [reflexivity..|]. rewrite Hm. reflexivity.
Qed.

(** C1: a well-formed call of an operation of the dangerous class while
    dangerous operations are disabled fails with [CapabilityDeniedError],
    and so does one of the admin or of the index class while its flag is
    off; the state is the one the call arrived in: no handle is acquired
    and the driver receives nothing. *)
Theorem denied_before_database (d : tooldef)
    (arguments : gmap string transport) (vals : list transport)
    (st : state) :
  d ∈ mongo_tools ->
  bind_arguments (params d) arguments = Some vals ->
  tools.validate (callee d) vals = true ->
  (tools.op_class_of (callee d) vals = ClsDangerous /\
     ENABLE_DANGEROUS_OPERATIONS cfg = false) \/
  (tools.op_class_of (callee d) vals = ClsAdmin /\
     ENABLE_ADMIN_OPERATIONS cfg = false) \/
  (tools.op_class_of (callee d) vals = ClsIndex /\
     ENABLE_INDEX_OPERATIONS cfg = false) ->
  invoke (tools.call cfg) d arguments st
    = (Raise (CapabilityDeniedError (tools.op_class_of (callee d) vals)), st).
Proof.
  intros Hd Hbind Hvalid Hoff.
  unfold invoke. rewrite Hbind.
  rewrite apply_is_tools_call;
    [|exact Hd|eapply bind_arguments_length; exact Hbind].
  apply call_denied; [exact Hvalid|].
  destruct Hoff as [[-> Hf]|[[-> Hf]|[-> Hf]]]; exact Hf.
Qed.

(** Denied or not well formed, a call of a class whose flag is off leaves
    the state as it was. *)
Lemma unauthorized_leaves_state (d : tooldef)
    (arguments : gmap string transport) (vals : list transport)
    (st : state) :
  d ∈ mongo_tools ->
  bind_arguments (params d) arguments = Some vals ->
  tools.authorize cfg (tools.op_class_of (callee d) vals) = false ->
  snd (invoke (tools.call cfg) d arguments st) = st.
Proof.
  intros Hd Hbind Hoff.
  unfold invoke. rewrite Hbind.
  rewrite apply_is_tools_call;
    [|exact Hd|eapply bind_arguments_length; exact Hbind].
  destruct (tools.validate (callee d) vals) eqn:Hvalid.
  - rewrite call_denied; [reflexivity|exact Hvalid|exact Hoff].
  - destruct (call_invalid (callee d) vals st Hvalid) as [msg ->].
    reflexivity.
Qed.

(** C7: a call of a tool that requires a database name in which the name is
    missing or empty fails with [ValidationError] in the state it arrived
    in: the connection manager is not reached and the driver receives
    nothing. *)
Theorem missing_database_name_rejected (d : tooldef)
    (arguments : gmap string transport) (st : state) :
  d ∈ mongo_tools ->
  required "database_name" ∈ params d ->
  arguments !! "database_name" = None \/
  arguments !! "database_name" = Some (TStr "") ->
  exists msg,
    invoke (tools.call cfg) d arguments st = (Raise (ValidationError msg), st).
Proof.
  intros Hd Hreq Hname.
  each_def Hd; simpl in Hreq;
    try (exfalso;
         repeat (apply elem_of_cons in Hreq as [Hreq|Hreq];
                 [discriminate Hreq|]);
         apply elem_of_nil in Hreq; exact Hreq);
    clear Hreq;
    (destruct Hname as [Hname|Hname];
     unfold invoke, bind_arguments; simpl; rewrite Hname; simpl;
     [eexists; reflexivity|]);
    repeat match goal with
           | |- context [arguments !! ?k] => destruct (arguments !! k); simpl
           end;
    eexists; reflexivity.
Qed.

(** Of a cursor, a [find_documents] call with [limit = 0] returns no more
    documents than the configured maximum. *)
Lemma returned_find_bounded (args : list transport) (answer : native)
    (docs : list transport) :
  tools.limit_of args = 0 ->
  encode (tools.returned cfg find_documents args answer) = TList docs ->
  (length docs <= Z.to_nat (MONGODB_MAX_DOCUMENTS_LIMIT cfg))%nat.
Proof.
  intros Hlimit. unfold tools.returned, tools.cursor_limit.
  rewrite Hlimit. simpl.
  destruct answer; simpl; try discriminate.
  intros Hdocs. injection Hdocs as <-.
  rewrite length_map, length_take. lia.
Qed.

(** C4: a find-documents call with [limit = 0], given or by default,
    returns at most [MONGODB_MAX_DOCUMENTS_LIMIT] documents. *)
Theorem find_with_limit_zero_is_bounded
    (arguments : gmap string transport) (st st' : state)
    (docs : list transport) :
  arguments !! "limit" = None \/ arguments !! "limit" = Some (TInt 0) ->
  invoke (tools.call cfg) mcp_find_documents arguments st
    = (Ok (TList docs), st') ->
  (length docs <= Z.to_nat (MONGODB_MAX_DOCUMENTS_LIMIT cfg))%nat.
Proof.
  intros Hlimit. unfold invoke.
  destruct (bind_arguments (params mcp_find_documents) arguments)
    as [vals|] eqn:Hbind; [|discriminate].
  rewrite apply_is_tools_call;
    [|unfold module_defs; do 11 apply list_elem_of_further;
      apply list_elem_of_here
     |eapply bind_arguments_length; exact Hbind].
  intros Hcall. apply call_ok in Hcall as [answer Hr].
  apply (returned_find_bounded vals answer); [|symmetry; exact Hr].
  unfold bind_arguments in Hbind. simpl in Hbind.
  repeat match type of Hbind with
         | context [arguments !! ?k] =>
             lazymatch k with
             | "limit" => fail
             | _ => destruct (arguments !! k); simpl in Hbind
             end
         end;
    try discriminate Hbind;
    destruct Hlimit as [Hl|Hl]; rewrite Hl in Hbind; simpl in Hbind;
    repeat match type of Hbind with
           | context [arguments !! ?k] =>
               destruct (arguments !! k); simpl in Hbind
           end;
    injection Hbind as <-; reflexivity.
Qed.

End gateway.

(** Dropping the database "test" under the default flags. *)
Lemma denied_before_database_witness :
  @invoke stub_driver (tools.call defaults) mcp_drop_database
    {["database_name" := TStr "test"]} stub_initial
  = (Raise (CapabilityDeniedError ClsDangerous), stub_initial).
Proof.
  apply (@denied_before_database stub_driver defaults mcp_drop_database
           {["database_name" := TStr "test"]} [TStr "test"] stub_initial).
  - unfold mongo_tools. do 3 apply list_elem_of_further.
    apply list_elem_of_here.
  - reflexivity.
  - reflexivity.
  - left. split; reflexivity.
Defined.

(** Listing the collections of no database, and of the database "". *)
Lemma missing_database_name_rejected_witness :
  (exists msg,
     @invoke stub_driver (tools.call defaults) mcp_list_collections ∅
       stub_initial = (Raise (ValidationError msg), stub_initial)) /\
  (exists msg,
     @invoke stub_driver (tools.call defaults) mcp_list_collections
       {["database_name" := TStr ""]} stub_initial
     = (Raise (ValidationError msg), stub_initial)).
Proof.
  assert (Hd : mcp_list_collections ∈ mongo_tools).
  { unfold mongo_tools. apply list_elem_of_further, list_elem_of_here. }
  assert (Hreq : required "database_name" ∈ params mcp_list_collections).
  { apply list_elem_of_here. }
  split.
  - apply (@missing_database_name_rejected stub_driver defaults
             mcp_list_collections ∅ stub_initial Hd Hreq).
    left. reflexivity.
  - apply (@missing_database_name_rejected stub_driver defaults
             mcp_list_collections {["database_name" := TStr ""]}
             stub_initial Hd Hreq).
    right. reflexivity.
Defined.

(** Three documents match, the maximum is two, and no limit is given: two
    documents are returned. *)
Lemma find_with_limit_zero_is_bounded_witness :
  let arguments : gmap string transport :=
    <["database_name" := TStr "shop"]>
      (<["collection_name" := TStr "orders"]> {["query" := TDict []]}) in
  let docs := [TDict [("n", TInt 1)]; TDict [("n", TInt 2)]] in
  fst (@invoke stub_driver (tools.call capped_config) mcp_find_documents
         arguments stub_initial) = Ok (TList docs) /\
  (length docs <= Z.to_nat (MONGODB_MAX_DOCUMENTS_LIMIT capped_config))%nat.
Proof.
  intros arguments docs. split; [vm_compute; reflexivity|].
  apply (@find_with_limit_zero_is_bounded stub_driver capped_config arguments
           stub_initial
           (snd (@invoke stub_driver (tools.call capped_config)
                   mcp_find_documents arguments stub_initial))
           docs).
  - left. reflexivity.
  - vm_compute. reflexivity.
Defined.

(** ** The value codec *)

(** A property checked on every number below a bound. *)
Lemma forall_below (P : N -> bool) (k : nat) :
  forallb P (N.of_nat <$> seq 0 k) = true ->
  forall n : N, (n < N.of_nat k)%N -> P n = true.
Proof.
  rewrite forallb_forall. intros HP n Hn. apply HP.
  apply in_map_iff. exists (N.to_nat n). split; [lia|].
  apply in_seq. lia.
Qed.

Ltac N_arith := zify; Z.to_euclidean_division_equations; lia.

(** *** Hexadecimal *)

Lemma hex_value_char (n : N) :
  (n < 16)%N -> hex_value (hex_char n) = Some n.
Proof.
  intros Hn.
  pose proof (forall_below
    (fun n => bool_decide (hex_value (hex_char n) = Some n)) 16) as Hall.
  assert (Hn' : (n < N.of_nat 16)%N) by lia.
  specialize (Hall ltac:(vm_compute; reflexivity) n Hn').
  apply bool_decide_eq_true in Hall. exact Hall.
Qed.

Lemma unhexlify_hexlify (bs : list Byte.byte) :
  unhexlify (hexlify bs) = Some bs.
Proof.
  induction bs as [|b bs IH]; simpl; [reflexivity|].
  pose proof (Byte.to_N_bounded b) as Hb.
  rewrite !hex_value_char by N_arith. simpl.
  replace (16 * (Byte.to_N b / 16) + Byte.to_N b mod 16)%N
    with (Byte.to_N b) by N_arith.
  rewrite Byte.of_to_N. simpl. rewrite IH. reflexivity.
Qed.

(** *** Base64 *)

Lemma b64_value_char (n : N) :
  (n < 64)%N ->
  b64_value (b64_char n) = Some n /\ Ascii.eqb (b64_char n) pad = false.
Proof.
  intros Hn.
  pose proof (forall_below
    (fun n => bool_decide (b64_value (b64_char n) = Some n) &&
              negb (Ascii.eqb (b64_char n) pad)) 64) as Hall.
  assert (Hn' : (n < N.of_nat 64)%N) by lia.
  specialize (Hall ltac:(vm_compute; reflexivity) n Hn').
  apply andb_true_iff in Hall as [Hv Hp].
  apply bool_decide_eq_true in Hv. apply negb_true_iff in Hp. auto.
Qed.

(** Lists taken three elements at a time. *)
Lemma list_ind3 {A : Type} (P : list A -> Prop) :
  P [] -> (forall x, P [x]) -> (forall x y, P [x; y]) ->
  (forall x y z r, P r -> P (x :: y :: z :: r)) ->
  forall l, P l.
Proof.
  intros H0 H1 H2 H3.
  assert (Hall : forall l, P l /\ (forall x, P (x :: l)) /\
                           (forall x y, P (x :: y :: l))).
  { induction l as [|a l (IH0 & IH1 & IH2)]; [auto|].
    split; [apply IH1|]. split; [intros x; apply IH2|].
    intros x y. apply H3, IH0. }
  intros l. apply Hall.
Qed.

Ltac b64_sextet :=
  match goal with
  | |- context [b64_value (b64_char ?n)] =>
      let Hv := fresh "Hv" in
      let Hp := fresh "Hp" in
      destruct (b64_value_char n) as [Hv Hp]; [N_arith|];
      rewrite Hv; clear Hv Hp; simpl
  end.

Ltac b64_not_pad :=
  match goal with
  | |- context [Ascii.eqb (b64_char ?n) pad] =>
      let Hv := fresh "Hv" in
      let Hp := fresh "Hp" in
      destruct (b64_value_char n) as [Hv Hp]; [N_arith|];
      rewrite Hp; clear Hv Hp; simpl
  end.

Ltac b64_byte x :=
  match goal with
  | |- context [Byte.of_N ?e] =>
      (replace e with (Byte.to_N x) by N_arith);
      rewrite Byte.of_to_N; simpl
  end.

Ltac b64_group :=
  cbn [b64encode b64decode];
  repeat b64_sextet; rewrite ?(Ascii.eqb_refl pad); repeat b64_not_pad;
  simpl.

Lemma b64decode_b64encode (bs : list Byte.byte) :
  b64decode (b64encode bs) = Some bs.
Proof.
  induction bs as [|x|x y|x y z r IH] using list_ind3.
  - reflexivity.
  - pose proof (Byte.to_N_bounded x).
    b64_group. b64_byte x. reflexivity.
  - pose proof (Byte.to_N_bounded x). pose proof (Byte.to_N_bounded y).
    b64_group. b64_byte x. b64_byte y. reflexivity.
  - pose proof (Byte.to_N_bounded x). pose proof (Byte.to_N_bounded y).
    pose proof (Byte.to_N_bounded z).
    b64_group. b64_byte x. b64_byte y. b64_byte z.
    rewrite IH. reflexivity.
Qed.

(** *** ISO-8601 *)

Lemma digit_char_digit (k : Z) :
  0 <= k < 10 ->
  py.is_digit (digit_char k) = true /\ py.digit_value (digit_char k) = k.
Proof.
  intros Hk.
  assert (Hcases : k = 0 \/ k = 1 \/ k = 2 \/ k = 3 \/ k = 4 \/ k = 5 \/
                   k = 6 \/ k = 7 \/ k = 8 \/ k = 9) by lia.
  repeat destruct Hcases as [->|Hcases]; try subst k; split; reflexivity.
Qed.

(** Reading back [w] digits gives the number they were printed from, up
    to its [w] lowest decimal places. *)
Lemma take_digits_zpad (w : nat) (acc n : Z) (rest : list ascii) :
  take_digits w acc (zpad w n ++ rest)
  = Some (acc * 10 ^ Z.of_nat w + n mod 10 ^ Z.of_nat w, rest).
Proof.
  revert acc. induction w as [|w IH]; intros acc.
  - simpl. rewrite Z.mod_1_r. f_equal. f_equal. lia.
  - cbn [zpad]. rewrite <- app_comm_cons. cbn [take_digits].
    destruct (digit_char_digit ((n / 10 ^ Z.of_nat w) mod 10)) as [Hd Hv].
    { apply Z.mod_pos_bound. lia. }
    rewrite Hd, Hv, IH. f_equal. f_equal.
    rewrite Nat2Z.inj_succ, Z.pow_succ_r by lia.
    rewrite (Z.mul_comm 10 (10 ^ Z.of_nat w)).
    rewrite (Z.rem_mul_r n (10 ^ Z.of_nat w) 10) by lia.
    ring.
Qed.

(** A field of the timestamp: a number that fits its width is read back
    as it is. *)
Lemma take_field (w : nat) (n : Z) (rest : list ascii) :
  0 <= n < 10 ^ Z.of_nat w ->
  take_digits w 0 (zpad w n ++ rest) = Some (n, rest).
Proof.
  intros Hn. rewrite take_digits_zpad.
  rewrite Z.mod_small by exact Hn. reflexivity.
Qed.

Lemma expect_here (c : ascii) (rest : list ascii) :
  expect c (c :: rest) = Some rest.
Proof. unfold expect. rewrite Ascii.eqb_refl. reflexivity. Qed.

Lemma days_in_month_le (y m : Z) : days_in_month y m <= 31.
Proof.
  unfold days_in_month.
  repeat match goal with
         | |- context [if ?b then _ else _] => destruct b
         end; lia.
Qed.

Lemma fromisoformat_isoformat (d : datetime) :
  datetime_ok d = true -> fromisoformat (isoformat d) = Some d.
Proof.
  intros Hok. pose proof Hok as Hok'.
  unfold datetime_ok in Hok'.
  repeat (apply andb_true_iff in Hok' as [Hok' ?]).
  pose proof (days_in_month_le (year d) (month d)).
  unfold isoformat, fromisoformat.
  rewrite <- (app_nil_r (zpad 6 (microsecond d))).
  repeat (rewrite take_field by (simpl; lia);
          cbn [mbind option_bind];
          rewrite ?expect_here;
          cbn [mbind option_bind]).
  destruct d. simpl in *. rewrite Hok. reflexivity.
Qed.

(** *** The round trip *)

Lemma decode_encode_oid (oid : list Byte.byte) :
  length oid = 12%nat -> decode (encode (NObjectId oid)) = NObjectId oid.
Proof.
  intros Hlen. cbn [encode decode]. unfold decode_tagged.
  rewrite list_ascii_of_string_of_list_ascii, unhexlify_hexlify.
  cbn [mbind option_bind]. rewrite Hlen. reflexivity.
Qed.

Lemma decode_encode_datetime (d : datetime) :
  datetime_ok d = true -> decode (encode (NDatetime d)) = NDatetime d.
Proof.
  intros Hok. cbn [encode decode]. unfold decode_tagged.
  rewrite list_ascii_of_string_of_list_ascii, fromisoformat_isoformat
    by exact Hok.
  reflexivity.
Qed.

Lemma decode_encode_binary (data : list Byte.byte) :
  decode (encode (NBinary data)) = NBinary data.
Proof.
  cbn [encode decode]. unfold decode_tagged.
  rewrite list_ascii_of_string_of_list_ascii, b64decode_b64encode.
  reflexivity.
Qed.

(** C3: decoding the encoding of an object identifier, of a timestamp, of
    a binary payload gives the value back. *)
Theorem decode_encode_extended (v : native) :
  is_extended v = true -> decode (encode v) = v.
Proof.
  intros Hv. destruct v; try discriminate Hv; cbn [is_extended] in Hv.
  - apply decode_encode_oid, Nat.eqb_eq, Hv.
  - apply decode_encode_datetime, Hv.
  - apply decode_encode_binary.
Qed.

(** The identifier 507f1f77bcf86cd799439011. *)
Lemma decode_encode_extended_witness :
  let oid := [Byte.x50; Byte.x7f; Byte.x1f; Byte.x77; Byte.xbc; Byte.xf8;
              Byte.x6c; Byte.xd7; Byte.x99; Byte.x43; Byte.x90; Byte.x11] in
  encode (NObjectId oid) = TTagged TagObjectId "507f1f77bcf86cd799439011" /\
  decode (encode (NObjectId oid)) = NObjectId oid.
Proof.
  intros oid. split; [reflexivity|].
  apply (decode_encode_extended (NObjectId oid)). reflexivity.
Defined.

(** The tagged form of an identifier is not a plain string, whatever its
    text. *)
Lemma tagged_is_not_plain (oid : list Byte.byte) (s : string) :
  encode (NObjectId oid) <> encode (NStr s).
Proof. discriminate. Qed.

(** The round trip holds at any depth: sequences and mappings that hold
    extended values come back as they were, keys in order. *)
Lemma decode_encode_exact :
  forall v : native, codec_exact v = true -> decode (encode v) = v.
Proof.
  fix IH 1. intros v Hv.
  destruct v as [|b|n|s|l|kvs|oid|d|data|repr];
    try reflexivity; try discriminate Hv.
  - cbn [encode decode]. f_equal. cbn [codec_exact] in Hv.
    induction l as [|a l IHl]; [reflexivity|].
    cbn [forallb] in Hv. apply andb_true_iff in Hv as [Ha Hl].
    cbn [map]. f_equal; [apply IH, Ha|apply IHl, Hl].
  - cbn [encode decode]. f_equal. cbn [codec_exact] in Hv.
    induction kvs as [|[k a] kvs IHl]; [reflexivity|].
    cbn [forallb snd] in Hv. apply andb_true_iff in Hv as [Ha Hl].
    cbn [map fst snd]. f_equal; [f_equal; apply IH, Ha|apply IHl, Hl].
  - apply decode_encode_oid, Nat.eqb_eq, Hv.
  - apply decode_encode_datetime, Hv.
  - apply decode_encode_binary.
Qed.

Import settings startup.

(** * Further properties of config.py *)

(** ** Boolean settings *)

Lemma lower_ascii_is (c : ascii) :
  Ascii.eqb (py.lower_ascii c) "t" = (Ascii.eqb c "t" || Ascii.eqb c "T") /\
  Ascii.eqb (py.lower_ascii c) "r" = (Ascii.eqb c "r" || Ascii.eqb c "R") /\
  Ascii.eqb (py.lower_ascii c) "u" = (Ascii.eqb c "u" || Ascii.eqb c "U") /\
  Ascii.eqb (py.lower_ascii c) "e" = (Ascii.eqb c "e" || Ascii.eqb c "E").
Proof.
  destruct c as [[] [] [] [] [] [] [] []]; repeat split; reflexivity.
Qed.

(** Comparing the lowered text with "true" accepts the sixteen spellings
    of the word and nothing else. *)
Lemma lower_is_true (s : string) :
  String.eqb (py.lower s) "true" = reads_true s.
Proof.
  destruct s as [|c1 [|c2 [|c3 [|c4 s]]]]; try reflexivity;
    cbn [py.lower String.eqb reads_true];
    destruct (lower_ascii_is c1) as (-> & _);
    try (destruct (lower_ascii_is c2) as (_ & -> & _));
    try (destruct (lower_ascii_is c3) as (_ & _ & -> & _));
    try (destruct (lower_ascii_is c4) as (_ & _ & _ & ->));
    repeat match goal with
           | |- context [Ascii.eqb ?c ?x || Ascii.eqb ?c ?y] =>
               destruct (Ascii.eqb c x || Ascii.eqb c y)
           end;
    try reflexivity; destruct s; reflexivity.
Qed.

Lemma load_booleans env c :
  load env = Some c ->
  MONGODB_TLS_ENABLED c = flag env "MONGODB_TLS_ENABLED" "false" /\
  MONGODB_WRITE_CONCERN_J c = flag env "MONGODB_WRITE_CONCERN_J" "false".
Proof.
  unfold load. intros Hload.
  repeat match type of Hload with
         | (_ ≫= _) = _ => apply bind_Some in Hload as (? & _ & Hload)
         end.
  injection Hload as <-. simpl. auto.
Qed.

(** X1: a boolean setting that is set in the environment is true exactly
    when its text is the word "true" in some letter case; the default
    counts only when the variable is not set at all.  So "1", "yes" or the
    empty text switch a flag off, also one whose default is on. *)
Theorem boolean_setting_reads_true (env : environ) (c : Config)
    (name text : string) :
  load env = Some c ->
  env !! name = Some text ->
  (name = "ENABLE_DANGEROUS_OPERATIONS" ->
     ENABLE_DANGEROUS_OPERATIONS c = reads_true text) /\
  (name = "ENABLE_ADMIN_OPERATIONS" ->
     ENABLE_ADMIN_OPERATIONS c = reads_true text) /\
  (name = "ENABLE_INDEX_OPERATIONS" ->
     ENABLE_INDEX_OPERATIONS c = reads_true text) /\
  (name = "MONGODB_TLS_ENABLED" -> MONGODB_TLS_ENABLED c = reads_true text) /\
  (name = "MONGODB_WRITE_CONCERN_J" ->
     MONGODB_WRITE_CONCERN_J c = reads_true text).
Proof.
  intros Hload Htext.
  destruct (load_flags env c Hload) as (Hd & Ha & Hi).
  destruct (load_booleans env c Hload) as (Ht & Hj).
  rewrite Hd, Ha, Hi, Ht, Hj. unfold flag, environ_get.
  repeat split; intros ->; rewrite Htext; apply lower_is_true.
Qed.

(** Admin operations are on by default; set to "1" they are off, and
    dangerous operations set to "TRUE" are on. *)
Lemma boolean_setting_reads_true_witness :
  let env : environ :=
    <["ENABLE_ADMIN_OPERATIONS" := "1"]>
      {["ENABLE_DANGEROUS_OPERATIONS" := "TRUE"]} in
  match load env with
  | Some c =>
      ENABLE_ADMIN_OPERATIONS c = false /\ ENABLE_DANGEROUS_OPERATIONS c = true
  | None => False
  end.
Proof.
  intros env. destruct (load env) as [c|] eqn:Hload.
  - split.
    + apply (boolean_setting_reads_true env c "ENABLE_ADMIN_OPERATIONS" "1"
               Hload); reflexivity.
    + apply (boolean_setting_reads_true env c "ENABLE_DANGEROUS_OPERATIONS"
               "TRUE" Hload); reflexivity.
  - vm_compute in Hload. discriminate Hload.
Defined.

(** ** From the environment to the connection options *)

(** X3: the TLS files are used only under [MONGODB_TLS_ENABLED]: unless
    that variable reads "true", the options have neither [tls] nor a CA or
    certificate file, whatever the file variables are set to. *)
Theorem tls_files_need_tls_enabled (env : environ) (c : Config) :
  load env = Some c ->
  reads_true (environ_get env "MONGODB_TLS_ENABLED" "false") = false ->
  get_connection_options c !! "tls" = None /\
  get_connection_options c !! "tlsCAFile" = None /\
  get_connection_options c !! "tlsCertificateKeyFile" = None.
Proof.
  intros Hload Hoff.
  destruct (load_booleans env c Hload) as (Htls & _).
  unfold flag in Htls. rewrite lower_is_true, Hoff in Htls.
  unfold get_connection_options. rewrite Htls.
  repeat split;
    (rewrite lookup_set_if_truthy; case_decide; [congruence|]);
    destruct (0 <? MONGODB_SOCKET_TIMEOUT_MS c);
    rewrite !lookup_insert_ne by congruence; apply lookup_empty.
Qed.

(** TLS "enabled" with the text "1", and a CA file given. *)
Lemma tls_files_need_tls_enabled_witness :
  let env : environ :=
    <["MONGODB_TLS_ENABLED" := "1"]>
      {["MONGODB_TLS_CA_FILE" := "/etc/ssl/ca.pem"]} in
  match load env with
  | Some c =>
      MONGODB_TLS_CA_FILE c = Some "/etc/ssl/ca.pem" /\
      get_connection_options c !! "tls" = None /\
      get_connection_options c !! "tlsCAFile" = None /\
      get_connection_options c !! "tlsCertificateKeyFile" = None
  | None => False
  end.
Proof.
  intros env. destruct (load env) as [c|] eqn:Hload.
  - split.
    + vm_compute in Hload. injection Hload as <-. reflexivity.
    + apply (tls_files_need_tls_enabled env c Hload). reflexivity.
  - vm_compute in Hload. discriminate Hload.
Defined.

(** The eleven keys, and a key outside them. *)
Lemma connection_options_keys_witness :
  is_Some (get_connection_options tls_config !! "tlsCAFile") /\
  "tlsCAFile" ∈ ["minPoolSize"; "maxPoolSize"; "maxIdleTimeMS";
                 "serverSelectionTimeoutMS"; "connectTimeoutMS";
                 "authSource"; "socketTimeoutMS"; "tls"; "tlsCAFile";
                 "tlsCertificateKeyFile"; "authMechanism"].
Proof.
  assert (Hset : is_Some (get_connection_options tls_config !! "tlsCAFile")).
  { vm_compute. eexists. reflexivity. }
  split; [exact Hset|].
  exact (connection_options_keys tls_config "tlsCAFile" Hset).
Defined.

(** ** The configuration log *)

Section log_facts.
Context `{Driver}.

(** X5: [log_configuration] returns normally and only logs: connection,
    driver calls and database stay as they are.  It adds twenty records at
    level INFO, two more (host and port) under a network transport,
    between its two banner lines, and the MongoDB URI is among them as it
    is configured. *)
Theorem log_configuration_only_logs (c : Config) (l : LogConfig)
    (st : state) :
  exists rs : list (level * list fragment),
    log_configuration c l st
      = (Ok tt, {| client := client st; calls := calls st; data := data st;
                   records := records st ++ rs |}) /\
    length rs = (if network_transport (MCP_TRANSPORT c) then 22 else 20)%nat /\
    Forall (fun r => fst r = INFO) rs /\
    head rs = Some (INFO, [Lit "=== MongoDB MCP Configuration ==="]) /\
    last rs = Some (INFO, [Lit "=== Configuration End ==="]) /\
    (INFO, [Lit "MongoDB URI: "; Lit (MONGODB_URI c)]) ∈ rs.
Proof.
  destruct st as [cl cs d rs0].
  destruct (network_transport (MCP_TRANSPORT c)) eqn:Hnet;
    cbv [log_configuration mbind M_bind logger_info modify mret M_ret
         add_record client calls data records];
    rewrite Hnet;
    cbv beta iota;
    repeat rewrite <- app_assoc; cbn [app];
    eexists; (split; [reflexivity|]);
    (split; [reflexivity|]);
    (split; [repeat constructor|]);
    (split; [reflexivity|]);
    (split; [reflexivity|]);
    repeat (first [apply list_elem_of_here | apply list_elem_of_further]).
Qed.

End log_facts.

(** ** What the module reads *)

(** X6: the settings depend on the thirty variables the module reads and
    on nothing else in the environment: two environments that agree on
    them are loaded alike. *)
Theorem load_reads_only_its_settings (env env' : environ) :
  (forall name, name ∈ setting_names -> env !! name = env' !! name) ->
  load_all env = load_all env'.
Proof.
  intros Hagree.
  assert (Hall : Forall (fun name => env !! name = env' !! name)
                   setting_names).
  { apply Forall_forall. exact Hagree. }
  unfold setting_names in Hall.
  repeat match type of Hall with
         | Forall _ (_ :: _) =>
             let Hk := fresh "Hk" in
             apply Forall_cons in Hall as [Hk Hall]
         end.
  clear Hall Hagree.
  unfold load_all, load, load_log, flag, environ_get.
  repeat match goal with
         | Hk : env !! _ = env' !! _ |- _ => rewrite Hk; clear Hk
         end.
  reflexivity.
Qed.

(** An unrelated variable beside the defaults. *)
Lemma load_reads_only_its_settings_witness :
  load_all {["PATH" := "/usr/bin"]} = load_all ∅.
Proof.
  apply (load_reads_only_its_settings {["PATH" := "/usr/bin"]} ∅).
  intros name Hname. unfold setting_names in Hname.
  repeat (apply elem_of_cons in Hname as [->|Hname]; [reflexivity|]).
  apply elem_of_nil in Hname. destruct Hname.
Defined.

(** * Further properties of server.py *)

(** ** Start-up *)

Section startup_facts.
Context `{Driver}.
Variable cfg : Config.

Lemma network_transport_iff (t : string) :
  network_transport t = true <-> t = "sse" \/ t = "streamable-http".
Proof.
  unfold network_transport. rewrite orb_true_iff, !String.eqb_eq.
  reflexivity.
Qed.

(** X7: when the application has no [asgi_app], [start_server]'s body logs
    one record and runs [app.run]: on the configured transport with host
    and port when it is exactly "sse" or "streamable-http", and on stdio
    for any other text. *)
Theorem serve_selects_transport `{!Framework} (st : state) :
  has_asgi_app = false ->
  serve cfg st =
    if decide (MCP_TRANSPORT cfg = "sse" \/
               MCP_TRANSPORT cfg = "streamable-http")
    then app_run (MCP_TRANSPORT cfg) (Some (MCP_HOST cfg, MCP_PORT cfg))
           (add_record INFO
              [Lit "Starting MCP server with "; Lit (MCP_TRANSPORT cfg);
               Lit " transport on "; Lit (MCP_HOST cfg); Lit ":";
               Num (MCP_PORT cfg)] st)
    else app_run "stdio" None
           (add_record INFO [Lit "Starting MCP server with stdio transport"]
              st).
Proof.
  intros Hasgi. unfold serve. rewrite Hasgi.
  pose proof (network_transport_iff (MCP_TRANSPORT cfg)) as Hnet.
  destruct (network_transport (MCP_TRANSPORT cfg));
    destruct (decide _) as [Hd|Hd]; try reflexivity.
  - exfalso. apply Hd, Hnet. reflexivity.
  - exfalso. assert (false = true) as Hf by (apply Hnet; exact Hd).
    discriminate Hf.
Qed.

(** X8: the CORS step never stops the start-up on an exception.  When the
    middleware is set up, or when setting it up raises an exception, the
    server goes on as one without [asgi_app] would, with one more record:
    the success at INFO, the failure at WARNING.  Only an exit under way
    passes. *)
Theorem cors_failure_is_not_fatal (F : Framework) (st : state) :
  @has_asgi_app _ F = true ->
  match @wrap_cors _ F st with
  | (Ok _, st1) =>
      @serve _ cfg F st =
      @serve _ cfg (without_asgi_app F)
        (add_record INFO [Lit "CORS middleware enabled for external access"]
           st1)
  | (Raise e, st1) =>
      if is_Exception e
      then @serve _ cfg F st =
           @serve _ cfg (without_asgi_app F)
             (add_record WARNING
                [Lit "Could not add CORS middleware: "; Exn e] st1)
      else @serve _ cfg F st = (Raise e, st1)
  end.
Proof.
  intros Hasgi. unfold serve. rewrite Hasgi. simpl.
  unfold try_except, mbind, M_bind, logger_info, logger_warning, modify, mret,
    M_ret.
  destruct (@wrap_cors _ F st) as [[[]|e] st1]; simpl.
  - reflexivity.
  - destruct (is_Exception e); reflexivity.
Qed.

Context `{!Framework}.

(** X9: unless its body raised an exception, [start_server] ends as the
    body ended, in the same state.  So when [app.run] returns, and when an
    exit or an interrupt passes through it, [start_server] neither logs nor
    closes the connection: it closes it on the exception path only. *)
Theorem start_server_outcome (st st1 : state) (r : result unit) :
  serve cfg st = (r, st1) ->
  (forall e, r = Raise e -> is_Exception e = false) ->
  start_server cfg st = (r, st1).
Proof.
  intros Hserve Hquiet. unfold start_server, try_except. rewrite Hserve.
  destruct r as [[]|e0]; [reflexivity|].
  rewrite (Hquiet e0 eq_refl). reflexivity.
Qed.

End startup_facts.

(** The transport "SSE", in capitals, under a framework whose [app.run]
    fails: stdio is run. *)
Lemma serve_selects_transport_witness :
  let cfg := default defaults (load {["MCP_TRANSPORT" := "SSE"]}) in
  MCP_TRANSPORT cfg = "SSE" /\
  @serve stub_driver cfg failing_framework stub_initial
  = @app_run stub_driver failing_framework "stdio" None
      (add_record INFO [Lit "Starting MCP server with stdio transport"]
         stub_initial).
Proof.
  intros cfg. split; [reflexivity|].
  exact (@serve_selects_transport stub_driver cfg failing_framework
           stub_initial eq_refl).
Defined.

(** The middleware cannot be imported: a warning, and the server runs. *)
Lemma cors_failure_is_not_fatal_witness :
  @serve stub_driver defaults cors_failing_framework stub_initial
  = @serve stub_driver defaults (without_asgi_app cors_failing_framework)
      (add_record WARNING
         [Lit "Could not add CORS middleware: ";
          Exn (Exception "No module named starlette")] stub_initial) /\
  fst (@serve stub_driver defaults cors_failing_framework stub_initial)
  = Ok tt.
Proof.
  split; [|reflexivity].
  exact (@cors_failure_is_not_fatal stub_driver defaults
           cors_failing_framework stub_initial eq_refl).
Defined.

(** An [app.run] that is interrupted, and one that returns. *)
Lemma start_server_outcome_witness :
  @start_server stub_driver defaults interrupted_framework stub_connected
  = (Raise KeyboardInterrupt,
     add_record INFO
       [Lit "Starting MCP server with "; Lit "sse"; Lit " transport on ";
        Lit "0.0.0.0"; Lit ":"; Num 8000] stub_connected) /\
  @start_server stub_driver defaults cors_failing_framework stub_initial
  = @serve stub_driver defaults cors_failing_framework stub_initial.
Proof.
  split.
  - apply (@start_server_outcome stub_driver defaults interrupted_framework
             stub_connected _ (Raise KeyboardInterrupt) eq_refl).
    intros e He. injection He as <-. reflexivity.
  - apply (@start_server_outcome stub_driver defaults cors_failing_framework
             stub_initial
             (snd (@serve stub_driver defaults cors_failing_framework
                     stub_initial))
             (Ok tt) eq_refl).
    intros e He. discriminate He.
Defined.

(** ** The signatures of the wrappers *)

(** The position of a parameter in a signature given in full. *)
Ltac position i Hi :=
  cbn in Hi;
  repeat (destruct i as [|i]; cbn in Hi;
          [try reflexivity; try discriminate Hi|try discriminate Hi]).

(** X11: the wrappers share one order of parameters.  Where a wrapper has
    a database name it is its first parameter, and where it has a
    collection name it is its second, after a required database name; no
    parameter occurs twice. *)
Theorem parameter_order (d : tooldef) :
  d ∈ mongo_tools ->
  NoDup (fst <$> params d) /\
  (forall i, (fst <$> params d) !! i = Some "database_name" -> i = 0%nat) /\
  (forall i, (fst <$> params d) !! i = Some "collection_name" ->
     i = 1%nat /\ params d !! 0%nat = Some (required "database_name")).
Proof.
  intros Hd.
  each_def Hd; cbn [params fmap list_fmap fst required optional];
    (split; [apply (bool_decide_unpack _); vm_compute; exact I|]);
    (split; [intros i Hi; position i Hi|]);
    intros i Hi; (split; [position i Hi|]);
    solve [reflexivity | position i Hi].
Qed.

(** The parameters of [mcp_find_documents]. *)
Lemma parameter_order_witness :
  NoDup (fst <$> params mcp_find_documents) /\
  (forall i, (fst <$> params mcp_find_documents) !! i = Some "database_name"
     -> i = 0%nat) /\
  (forall i, (fst <$> params mcp_find_documents) !! i
             = Some "collection_name" ->
     i = 1%nat /\
     params mcp_find_documents !! 0%nat = Some (required "database_name")).
Proof.
  apply (parameter_order mcp_find_documents).
  unfold mongo_tools. do 11 apply list_elem_of_further.
  apply list_elem_of_here.
Defined.
